(** * EOL monitoring utility ([eol-check/eol_check.py])

    A shallow embedding of the script's two flows, [generate-ics] and
    [open-issues], together with the parts of the Python runtime they use:
    [datetime.date], dictionaries loaded from YAML and JSON, exceptions,
    and the outside world (HTTP, the [gh] subprocess, the clock, the
    environment, standard output) as a history-dependent oracle.

    Strings are byte strings; floats and [bytes] objects are not part of
    the modelled value universe.  Argument parsing and the YAML loader
    ([main], [_load]) stay outside: the flows start from the loaded list
    of entries. *)

From Stdlib Require Import ZArith Lia Ascii String List Bool.
From stdpp Require Import base option gmap strings list fin_maps pretty.

Set Warnings "-register-all".

(* ===================================================================== *)
(** ** Small string toolkit *)
(* ===================================================================== *)

(** A one-character string; used for the characters a literal cannot
    hold directly (newline, double quote). *)
Definition chr (n : nat) : string := String (ascii_of_nat n) EmptyString.
Definition newline : string := chr 10.
Definition dquote : string := chr 34.
Definition space : ascii := ascii_of_nat 32.

(** [s] has no space character in it. *)
Fixpoint no_space (s : string) : bool :=
  match s with
  | EmptyString => true
  | String c r => negb (Ascii.eqb c space) && no_space r
  end.

(* ===================================================================== *)
(** ** [datetime.date] *)
(* ===================================================================== *)

Module Datetime.
Local Open Scope Z_scope.

Record date := Date { year : Z; month : Z; day : Z }.

Definition MINYEAR : Z := 1.
Definition MAXYEAR : Z := 9999.

Definition _is_leap (y : Z) : bool :=
  (y mod 4 =? 0) && (negb (y mod 100 =? 0) || (y mod 400 =? 0)).

Definition _DAYS_IN_MONTH (m : Z) : Z :=
  match m with
  | 1 => 31 | 2 => 28 | 3 => 31 | 4 => 30 | 5 => 31 | 6 => 30
  | 7 => 31 | 8 => 31 | 9 => 30 | 10 => 31 | 11 => 30 | 12 => 31
  | _ => -1
  end.

Definition _DAYS_BEFORE_MONTH (m : Z) : Z :=
  match m with
  | 1 => 0 | 2 => 31 | 3 => 59 | 4 => 90 | 5 => 120 | 6 => 151
  | 7 => 181 | 8 => 212 | 9 => 243 | 10 => 273 | 11 => 304 | 12 => 334
  | _ => -1
  end.

Definition _days_before_year (y : Z) : Z :=
  let y' := y - 1 in y' * 365 + y' / 4 - y' / 100 + y' / 400.

Definition _days_in_month (y m : Z) : Z :=
  if (m =? 2) && _is_leap y then 29 else _DAYS_IN_MONTH m.

Definition _days_before_month (y m : Z) : Z :=
  _DAYS_BEFORE_MONTH m + (if (2 <? m) && _is_leap y then 1 else 0).

Definition _ymd2ord (y m d : Z) : Z :=
  _days_before_year y + _days_before_month y m + d.

(** The range check of the [date] constructor. *)
Definition valid_date (d : date) : bool :=
  (MINYEAR <=? year d) && (year d <=? MAXYEAR)
  && (1 <=? month d) && (month d <=? 12)
  && (1 <=? day d) && (day d <=? _days_in_month (year d) (month d)).

Definition toordinal (d : date) : Z := _ymd2ord (year d) (month d) (day d).

(** [(a - b).days] *)
Definition sub_days (a b : date) : Z := toordinal a - toordinal b.

(** *** Formatting: [date.isoformat], i.e. ["%04d-%02d-%02d"] *)

Definition digit (n : Z) : ascii := ascii_of_nat (Z.to_nat (48 + n)).

Definition pad2 (n : Z) (k : string) : string :=
  String (digit (n / 10 mod 10)) (String (digit (n mod 10)) k).

Definition pad4 (n : Z) (k : string) : string :=
  String (digit (n / 1000 mod 10)) (String (digit (n / 100 mod 10)) (pad2 n k)).

Definition dash : ascii := ascii_of_nat 45.

Definition isoformat (d : date) : string :=
  pad4 (year d) (String dash (pad2 (month d) (String dash (pad2 (day d) EmptyString)))).

(** *** Parsing: [date.fromisoformat] on a [str]

    The extended calendar format [YYYY-MM-DD]: exactly ten bytes, ASCII
    digits around two dashes, then the constructor's range check.  [None]
    stands for [ValueError].  Python 3.11 and later read further ISO 8601
    spellings as well; the statements below rely only on what is accepted
    here, never on a rejection. *)

Definition digit_val (c : ascii) : option Z :=
  let n := Z.of_nat (nat_of_ascii c) in
  if (48 <=? n) && (n <=? 57) then Some (n - 48) else None.

Definition parse2 (a b : ascii) : option Z :=
  match digit_val a, digit_val b with
  | Some x, Some y => Some (10 * x + y)
  | _, _ => None
  end.

Definition parse4 (a b c d : ascii) : option Z :=
  match parse2 a b, parse2 c d with
  | Some x, Some y => Some (100 * x + y)
  | _, _ => None
  end.

Definition fromisoformat (s : string) : option date :=
  match list_ascii_of_string s with
  | [y1; y2; y3; y4; s1; m1; m2; s2; d1; d2] =>
      if Ascii.eqb s1 dash && Ascii.eqb s2 dash then
        match parse4 y1 y2 y3 y4, parse2 m1 m2, parse2 d1 d2 with
        | Some y, Some m, Some d =>
            let r := Date y m d in
            if valid_date r then Some r else None
        | _, _, _ => None
        end
      else None
  | _ => None
  end.

End Datetime.

Import Datetime.

(* ===================================================================== *)
(** ** Python values, exceptions and outcomes *)
(* ===================================================================== *)

(** What [yaml.safe_load] and [json] hand to the script. *)
Inductive value :=
| VNone
| VBool (b : bool)
| VInt (z : Z)
| VStr (s : string)
| VDate (d : date)
| VList (l : list value)
| VDict (m : gmap string value).

(** A product entry is a dictionary with string keys. *)
Abbreviation entry := (gmap string value).

Inductive exn :=
| KeyError (key : string)
| TypeError
| AttributeError
| ValueError (msg : option string)   (* [None]: raised by the runtime *)
| JSONDecodeError
| HTTPError (status_code : Z)
| CalledProcessError (returncode : Z)
| SystemExit (code : Z)
| OtherError (name : string).        (* connection, timeout, OS errors *)

Inductive outcome (A : Type) :=
| Ret (a : A)
| Raise (e : exn).
Arguments Ret {A} a.
Arguments Raise {A} e.

Definition obind {A B} (o : outcome A) (k : A -> outcome B) : outcome B :=
  match o with
  | Ret a => k a
  | Raise e => Raise e
  end.

(** ** The outside world *)

Record response := Response { status_code : Z; json_body : option value }.

Inductive http_result :=
| HttpRaise (e : exn)
| HttpReturn (rv : response).

Inductive proc_result :=
| ProcRaise (e : exn)
| Completed (returncode : Z) (stdout : string).

Record ics_event := IcsEvent {
  evt_name : string;
  evt_begin : date;
  evt_all_day : bool;
  evt_uid : string;
  evt_description : string
}.

Inductive event :=
| EvHttpGet (url : value) (timeout : Z)
| EvRun (cmd : list value)
| EvStdout (line : string)
| EvStderr (line : string)
| EvWriteText (path : string) (content : string).

Abbreviation trace := (list event).

(** Everything the script does not compute itself.  Answers may depend on
    the history of the run so far. *)
Record World := {
  container_repr : value -> string;          (* [repr] of a list or dict *)
  int_of_str : string -> option Z;           (* [int(s)] for a [str] *)
  json_loads : string -> option value;       (* [json.loads] *)
  ics_serialize : list ics_event -> string;  (* [Calendar.serialize] *)
  getenv : string -> option string;          (* [os.getenv] *)
  today : trace -> date;                     (* [date.today()] *)
  http : trace -> value -> Z -> http_result; (* [requests.get(url, timeout)] *)
  subprocess : trace -> list value -> proc_result; (* [subprocess.run(cmd)] *)
  write_file : trace -> string -> string -> option exn (* [Path.write_text] *)
}.

Definition with_getenv (w : World) (g : string -> option string) : World :=
  {| container_repr := container_repr w;
     int_of_str := int_of_str w;
     json_loads := json_loads w;
     ics_serialize := ics_serialize w;
     getenv := g;
     today := today w;
     http := http w;
     subprocess := subprocess w;
     write_file := write_file w |}.

Definition with_today (w : World) (d : date) : World :=
  {| container_repr := container_repr w;
     int_of_str := int_of_str w;
     json_loads := json_loads w;
     ics_serialize := ics_serialize w;
     getenv := getenv w;
     today := fun _ => d;
     http := http w;
     subprocess := subprocess w;
     write_file := write_file w |}.

(** ** The monad of the script: exceptions over an event log *)

Definition M (A : Type) : Type := trace -> outcome A * trace.

Definition ret {A} (a : A) : M A := fun t => (Ret a, t).
Definition raise {A} (e : exn) : M A := fun t => (Raise e, t).
Definition lift {A} (o : outcome A) : M A := fun t => (o, t).
Definition emit (ev : event) : M unit := fun t => (Ret tt, t ++ [ev]).

Definition bind {A B} (m : M A) (k : A -> M B) : M B :=
  fun t =>
    match m t with
    | (Ret a, t') => k a t'
    | (Raise e, t') => (Raise e, t')
    end.

Notation "x <- c ;; k" := (bind c (fun x => k))
  (at level 100, c at next level, right associativity).
Notation "c ;;; k" := (bind c (fun _ => k))
  (at level 100, right associativity).

(** [for x in l: body(x)] *)
Fixpoint for_each {A} (body : A -> M unit) (l : list A) : M unit :=
  match l with
  | [] => ret tt
  | x :: rest => body x ;;; for_each body rest
  end.

(* ===================================================================== *)
(** ** Python built-ins on values *)
(* ===================================================================== *)

(** [bool(v)] *)
Definition truthy (v : value) : bool :=
  match v with
  | VNone => false
  | VBool b => b
  | VInt z => negb (z =? 0)%Z
  | VStr s => negb (String.eqb s EmptyString)
  | VDate _ => true
  | VList l => match l with [] => false | _ => true end
  | VDict m => negb (Nat.eqb (size m) 0)
  end.

(** [v == s] for a [str] [s] *)
Definition py_eq_str (v : value) (s : string) : bool :=
  match v with
  | VStr s' => String.eqb s' s
  | _ => false
  end.

(** [v[k]] *)
Definition getitem (v : value) (k : string) : outcome value :=
  match v with
  | VDict m =>
      match m !! k with
      | Some x => Ret x
      | None => Raise (KeyError k)
      end
  | _ => Raise TypeError
  end.

(** [v.get(k)] *)
Definition py_get (v : value) (k : string) : outcome value :=
  match v with
  | VDict m => Ret (default VNone (m !! k))
  | _ => Raise AttributeError
  end.

(** [len(v)] *)
Definition py_len (v : value) : outcome nat :=
  match v with
  | VStr s => Ret (String.length s)
  | VList l => Ret (length l)
  | VDict m => Ret (size m)
  | _ => Raise TypeError
  end.

(** [iter(v)]: the elements a [for] loop visits.  A dict yields its keys
    and a [str] its characters. *)
Definition py_iter (v : value) : outcome (list value) :=
  match v with
  | VList l => Ret l
  | VDict m => Ret (VStr <$> (map_to_list m).*1)
  | VStr s => Ret ((fun c => VStr (String c EmptyString)) <$> list_ascii_of_string s)
  | _ => Raise TypeError
  end.

(** [_iso(d)], that is [dt.date.fromisoformat(d)] *)
Definition _iso (d : value) : outcome date :=
  match d with
  | VStr s =>
      match fromisoformat s with
      | Some r => Ret r
      | None => Raise (ValueError None)
      end
  | _ => Raise TypeError
  end.

(** The status codes [Response.raise_for_status] turns into an
    [HTTPError]: client errors (4xx) and server errors (5xx). *)
Definition error_status (code : Z) : bool := (400 <=? code)%Z && (code <? 600)%Z.

(** The two message templates.  [str.format] is applied to strings here;
    the callers convert the fields with [py_str]. *)
Definition TITLE_TMPL (product version eol_date : string) : string :=
  product +:+ " " +:+ version +:+ " reaches EOL on " +:+ eol_date.

Definition BODY_TMPL (product version eol_date source_ref : string) : string :=
  "⚠️ **End‑of‑life approaching**" +:+ newline +:+ newline +:+
  "* **Product:** " +:+ product +:+ " " +:+ version +:+ newline +:+
  "* **EOL date:** " +:+ eol_date +:+ newline +:+ newline +:+
  "_Source: " +:+ source_ref +:+ "_" +:+ newline.

(* ===================================================================== *)
(** ** The script *)
(* ===================================================================== *)

Section Script.
Variable w : World.

(** [str(v)], also what [str.format] and f-strings insert for [v] *)
Definition py_str (v : value) : string :=
  match v with
  | VNone => "None"
  | VBool true => "True"
  | VBool false => "False"
  | VInt z => pretty z
  | VStr s => s
  | VDate d => isoformat d
  | VList _ | VDict _ => container_repr w v
  end.

(** [int(v)] *)
Definition py_int (v : value) : outcome Z :=
  match v with
  | VInt z => Ret z
  | VBool b => Ret (if b then 1 else 0)%Z
  | VStr s =>
      match int_of_str w s with
      | Some z => Ret z
      | None => Raise (ValueError None)
      end
  | _ => Raise TypeError
  end.

(** [print(s)] and [print(s, file=sys.stderr)] *)
Definition print (s : string) : M unit := emit (EvStdout s).
Definition eprint (s : string) : M unit := emit (EvStderr s).

(** [requests.get(url, timeout=...)] *)
Definition requests_get (url : value) (timeout : Z) : M response :=
  fun t =>
    let t' := t ++ [EvHttpGet url timeout] in
    match http w t url timeout with
    | HttpRaise e => (Raise e, t')
    | HttpReturn rv => (Ret rv, t')
    end.

(** [rv.raise_for_status()] *)
Definition raise_for_status (rv : response) : outcome unit :=
  if error_status (status_code rv)
  then Raise (HTTPError (status_code rv))
  else Ret tt.

(** [rv.json()] *)
Definition response_json (rv : response) : outcome value :=
  match json_body rv with
  | Some v => Ret v
  | None => Raise JSONDecodeError
  end.

(** [subprocess.run(cmd, check=True, ...)]; the result is the captured
    standard output. *)
Definition subprocess_run_check (cmd : list value) : M string :=
  fun t =>
    let t' := t ++ [EvRun cmd] in
    match subprocess w t cmd with
    | ProcRaise e => (Raise e, t')
    | Completed rc out =>
        if (rc =? 0)%Z then (Ret out, t') else (Raise (CalledProcessError rc), t')
    end.

(** [dest.write_text(content)] *)
Definition write_text (dest content : string) : M unit :=
  fun t =>
    let t' := t ++ [EvWriteText dest content] in
    match write_file w t dest content with
    | Some e => (Raise e, t')
    | None => (Ret tt, t')
    end.

(** [payload["result"]["releases"]] under
    [try ... except (KeyError, TypeError): raise ValueError(...)] *)
Definition payload_releases (ep payload : value) : outcome value :=
  match obind (getitem payload "result") (fun r => getitem r "releases") with
  | Raise (KeyError _) | Raise TypeError =>
      Raise (ValueError (Some
        ("Unexpected schema from " +:+ py_str ep +:+ "; expected result.releases")))
  | o => o
  end.

(** The body of [for rel in releases: ...]; [Ret None] means that the loop
    ran to its end without returning. *)
Fixpoint scan_releases (entry : entry) (version : string) (releases : list value)
  : outcome (option date) :=
  match releases with
  | [] => Ret None
  | rel :: rest =>
      obind (py_get rel "name") (fun name =>
      if py_eq_str name version then
        obind (py_get rel "eolFrom") (fun eol_str =>
        if negb (truthy eol_str) then
          obind (getitem (VDict entry) "product") (fun product =>
          Raise (ValueError (Some
            ("eolFrom missing for " +:+ py_str product +:+ " " +:+ version))))
        else
          obind (_iso eol_str) (fun d => Ret (Some d)))
      else scan_releases entry version rest)
  end.

(** The API branch of [_resolve_eol], lines 61 to 79. *)
Definition resolve_api (entry : entry) : M date :=
  ep <- lift (getitem (VDict entry) "api_endpoint") ;;
  rv <- requests_get ep 10 ;;
  lift (raise_for_status rv) ;;;
  payload <- lift (response_json rv) ;;
  releases <- lift (payload_releases ep payload) ;;
  v <- lift (getitem (VDict entry) "version") ;;
  let version := py_str v in
  rels <- lift (py_iter releases) ;;
  found <- lift (scan_releases entry version rels) ;;
  match found with
  | Some d => ret d
  | None =>
      product <- lift (getitem (VDict entry) "product") ;;
      raise (ValueError (Some
        (py_str product +:+ " " +:+ version +:+ " not found @ " +:+ py_str ep)))
  end.

Definition _resolve_eol (entry : entry) : M date :=
  if py_eq_str (default (VStr "api") (entry !! "source")) "manual" then
    d <- lift (getitem (VDict entry) "eol_date") ;;
    lift (_iso d)
  else resolve_api entry.

(** One calendar event, lines 88 to 95. *)
Definition make_event (e : entry) (eol : date) : outcome ics_event :=
  obind (getitem (VDict e) "product") (fun product =>
  obind (getitem (VDict e) "version") (fun version =>
  Ret {| evt_name := py_str product +:+ " " +:+ py_str version +:+ " EOL";
         evt_begin := eol;
         evt_all_day := true;
         evt_uid := py_str product +:+ "-" +:+ py_str version +:+ "@eol-checks";
         evt_description :=
           TITLE_TMPL (py_str product) (py_str version) (isoformat eol) |})).

(** The body of the loop of [_calendar], lines 86 to 95. *)
Definition calendar_body (e : entry) : M ics_event :=
  print (py_str (VDict e)) ;;;
  eol <- _resolve_eol e ;;
  lift (make_event e eol).

(** The loop of [_calendar]; [cal] is the sequence of events added so far
    ([cal.events.add(evt)]). *)
Fixpoint calendar_loop (entries : list entry) (cal : list ics_event)
  : M (list ics_event) :=
  match entries with
  | [] => ret cal
  | e :: rest =>
      evt <- calendar_body e ;;
      calendar_loop rest (cal ++ [evt])
  end.

Definition _calendar (entries : list entry) (dest : string) : M unit :=
  cal <- calendar_loop entries [] ;;
  write_text dest (ics_serialize w cal).

Definition _days_until (d : date) : M Z :=
  fun t => (Ret (sub_days d (today w t)), t).

Definition issue_list_cmd (repo : value) (title : string) : list value :=
  [VStr "gh"; VStr "issue"; VStr "list"; VStr "--repo"; repo;
   VStr "--state"; VStr "all"; VStr "--json"; VStr "title";
   VStr "--search"; VStr ("in:title " +:+ dquote +:+ title +:+ dquote);
   VStr "-L"; VStr "1"].

Definition _issue_exists (repo : value) (title : string) : M bool :=
  out <- subprocess_run_check (issue_list_cmd repo title) ;;
  match json_loads w out with
  | None => raise JSONDecodeError
  | Some js =>
      n <- lift (py_len js) ;;
      ret (0 <? n)
  end.

Definition issue_create_cmd (repo : value) (title body : string) : list value :=
  [VStr "gh"; VStr "issue"; VStr "create"; VStr "--repo"; repo;
   VStr "--title"; VStr title; VStr "--body"; VStr body].

Definition _create_issue (repo : value) (title body : string) : M unit :=
  subprocess_run_check (issue_create_cmd repo title body) ;;; ret tt.

(** Lines 163 to 177: the entry has crossed its threshold. *)
Definition notify (e : entry) (repo : value) (eol : date) : M unit :=
  product <- lift (getitem (VDict e) "product") ;;
  version <- lift (getitem (VDict e) "version") ;;
  let title := TITLE_TMPL (py_str product) (py_str version) (isoformat eol) in
  dup <- _issue_exists repo title ;;
  if dup then
    print ("Issue already exists in " +:+ py_str repo +:+ ": " +:+ title)
  else
    let body :=
      BODY_TMPL (py_str product) (py_str version) (isoformat eol)
        (py_str (default (VStr "manual entry") (e !! "api_endpoint"))) in
    _create_issue repo title body ;;;
    print ("Created issue in " +:+ py_str repo +:+ ": " +:+ title).

(** The body of the loop of [_open_issues], lines 154 to 177; [continue]
    is a normal return. *)
Definition open_issues_body (e : entry) : M unit :=
  let repo := default VNone (e !! "issue_repo") in
  if negb (truthy repo) then ret tt
  else
    warn <- lift (py_int (default (VInt 30) (e !! "warn_days"))) ;;
    eol <- _resolve_eol e ;;
    days <- _days_until eol ;;
    if (warn <? days)%Z then ret tt
    else notify e repo eol.

Definition _open_issues (entries : list entry) : M unit :=
  match getenv w "GH_TOKEN" with
  | Some (String _ _) => for_each open_issues_body entries
  | _ =>
      eprint "ERROR: GH_TOKEN env var not set" ;;;
      raise (SystemExit 1)
  end.

End Script.

(* ===================================================================== *)
(** ** Vocabulary of the statements *)
(* ===================================================================== *)

(** [payload["result"]["releases"]], when the payload is a dict whose
    [result] is a dict with a [releases] key. *)
Definition result_releases (payload : value) : option value :=
  match payload with
  | VDict m =>
      match m !! "result" with
      | Some (VDict r) => r !! "releases"
      | _ => None
      end
  | _ => None
  end.

(** A release record whose [name] is not the string [version]. *)
Definition other_release (version : string) (rel : value) : bool :=
  match rel with
  | VDict m => negb (py_eq_str (default VNone (m !! "name")) version)
  | _ => false
  end.

(** A release record named [version]; the result is its [eolFrom] field
    ([VNone] when the field is missing). *)
Definition named_release (version : string) (rel : value) : option value :=
  match rel with
  | VDict m =>
      if py_eq_str (default VNone (m !! "name")) version
      then Some (default VNone (m !! "eolFrom"))
      else None
  | _ => None
  end.

(* ===================================================================== *)
(** ** Sample catalogs and worlds *)
(* ===================================================================== *)

Module Samples.

(** A world with no network answer but errors, no tracker, no token. *)
Definition offline : World :=
  {| container_repr := fun _ => "<container>";
     int_of_str := fun _ => None;
     json_loads := fun _ => None;
     ics_serialize := fun _ => EmptyString;
     getenv := fun _ => None;
     today := fun _ => Date 2023 12 15;
     http := fun _ _ _ => HttpRaise (OtherError "ConnectionError");
     subprocess := fun _ _ => ProcRaise (OtherError "FileNotFoundError");
     write_file := fun _ _ _ => None |}.

(** Scenario 1 of the specification: a manual entry. *)
Definition foo : entry :=
  <["product" := VStr "Foo"]> (<["version" := VStr "1.0"]>
  (<["source" := VStr "manual"]> (<["eol_date" := VStr "2024-01-01"]>
  (<["issue_repo" := VStr "org/repo"]> (<["warn_days" := VInt 30]> ∅))))).

(** An API entry; no [source], no [warn_days]. *)
Definition endpoint : value := VStr "https://endoflife.date/api/v1/products/bar".

Definition bar : entry :=
  <["product" := VStr "Bar"]> (<["version" := VStr "2.0"]>
  (<["api_endpoint" := endpoint]> (<["issue_repo" := VStr "org/repo"]> ∅))).

Definition release (name : string) (eolFrom : value) : value :=
  VDict (<["name" := VStr name]> (<["eolFrom" := eolFrom]> ∅)).

Definition releases_payload (rels : list value) : value :=
  VDict (<["result" := VDict (<["releases" := VList rels]> ∅)]> ∅).

(** Scenario 3 of the specification. *)
Definition payload3 : value :=
  releases_payload [release "2.0" (VStr "2025-05-01")].

(** Near misses of the version string before the match, a second match
    after it. *)
Definition payload_many : value :=
  releases_payload
    [release "2" (VStr "2024-01-01"); release "2.00" (VStr "2024-02-02");
     release "2.0" (VStr "2025-05-01"); release "2.0" (VStr "2030-01-01")].

(** A world whose every request is answered with the given status and
    JSON body.  The tracker answers a search with [found] and accepts
    every creation. *)
Definition online (status : Z) (body : option value) (found : list value) : World :=
  {| container_repr := fun _ => "<container>";
     int_of_str := fun _ => None;
     json_loads := fun s => if String.eqb s "<gh stdout>" then Some (VList found) else None;
     ics_serialize := fun _ => EmptyString;
     getenv := fun k => if String.eqb k "GH_TOKEN" then Some "ghp_token" else None;
     today := fun _ => Date 2025 4 20;
     http := fun _ _ _ => HttpReturn (Response status body);
     subprocess := fun _ cmd =>
       match cmd !! 2%nat with
       | Some (VStr "list") => Completed 0 "<gh stdout>"
       | _ => Completed 0 EmptyString
       end;
     write_file := fun _ _ _ => None |}.

End Samples.

(* ===================================================================== *)
(** ** The entry point *)
(* ===================================================================== *)




(* ===================================================================== *)
(** ** Vocabulary of the further statements *)
(* ===================================================================== *)

(** The request a resolution of [e] sends: none for a manual entry or an
    entry without endpoint, one otherwise. *)
Definition request_of (e : entry) : trace :=
  if py_eq_str (default (VStr "api") (e !! "source")) "manual" then []
  else
    match e !! "api_endpoint" with
    | Some ep => [EvHttpGet ep 10]
    | None => []
    end.

Definition is_get (ev : event) : bool :=
  match ev with EvHttpGet _ _ => true | _ => false end.

Definition is_stdout (ev : event) : bool :=
  match ev with EvStdout _ => true | _ => false end.

Definition is_write (ev : event) : bool :=
  match ev with EvWriteText _ _ => true | _ => false end.

Definition is_run (ev : event) : bool :=
  match ev with EvRun _ => true | _ => false end.

(** A [gh issue <verb> ...] command. *)
Definition is_gh (verb : string) (ev : event) : bool :=
  match ev with
  | EvRun (VStr "gh" :: VStr "issue" :: VStr v :: _) => String.eqb v verb
  | _ => false
  end.

Fixpoint count_events (p : event -> bool) (evs : trace) : nat :=
  match evs with
  | [] => 0
  | ev :: rest => (if p ev then 1 else 0) + count_events p rest
  end.

(** The events the tracker stage of one entry can leave, for a given
    repository, title and body. *)
Definition tracker_events (w : World) (repo : value) (title body : string)
    (evs : trace) : Prop :=
  let probe := EvRun (issue_list_cmd repo title) in
  let create := EvRun (issue_create_cmd repo title body) in
  evs = [probe] \/
  evs = [probe; EvStdout ("Issue already exists in " +:+ py_str w repo +:+ ": " +:+ title)] \/
  evs = [probe; create] \/
  evs = [probe; create; EvStdout ("Created issue in " +:+ py_str w repo +:+ ": " +:+ title)].

(** Values a [for] loop cannot iterate over. *)
Definition not_iterable (v : value) : bool :=
  match v with
  | VNone | VBool _ | VInt _ | VDate _ => true
  | _ => false
  end.

Definition is_dict (v : value) : bool :=
  match v with VDict _ => true | _ => false end.


(** A payload with one release record. *)
Definition one_release_payload (name eolFrom : string) : value :=
  VDict (<["result" :=
    VDict (<["releases" :=
      VList [VDict (<["name" := VStr name]> (<["eolFrom" := VStr eolFrom]> ∅))]]> ∅)]> ∅).

(** Calendar order on dates. *)
Definition date_ltb (a b : date) : bool :=
  (year a <? year b)%Z
  || ((year a =? year b)%Z
      && ((month a <? month b)%Z
          || ((month a =? month b)%Z && (day a <? day b)%Z))).


(** What the calendar flow logs for one entry: the printed entry, then
    the request of its resolution. *)
Definition calendar_footprint (w : World) (e : entry) : trace :=
  EvStdout (py_str w (VDict e)) :: request_of e.

Module Cases.

(** A tracker that has every title already, on the network of
    [Samples.online]. *)
Definition hit : value := VDict (<["title" := VStr "Foo 1.0 reaches EOL on 2024-01-01"]> ∅).


End Cases.

(* ===================================================================== *)
(** ** Running the monad *)
(* ===================================================================== *)

Section MonadFacts.
Context {A B : Type}.

Lemma bind_Ret (m : M A) (k : A -> M B) t a t' :
  m t = (Ret a, t') -> bind m k t = k a t'.
Proof. intros H. unfold bind. now rewrite H. Qed.

Lemma bind_Raise (m : M A) (k : A -> M B) t e t' :
  m t = (Raise e, t') -> bind m k t = (Raise e, t').
Proof. intros H. unfold bind. now rewrite H. Qed.

Lemma bind_lift_Ret (a : A) (k : A -> M B) t :
  bind (lift (Ret a)) k t = k a t.
Proof. reflexivity. Qed.

Lemma bind_lift_Raise e (k : A -> M B) t :
  bind (lift (Raise e)) k t = (Raise e, t).
Proof. reflexivity. Qed.

End MonadFacts.

Lemma for_each_cons {A} (body : A -> M unit) x rest t :
  for_each body (x :: rest) t =
  match body x t with
  | (Ret _, t') => for_each body rest t'
  | (Raise e, t') => (Raise e, t')
  end.
Proof. reflexivity. Qed.

(** C8. An entry without [issue_repo] is skipped by the notification flow
    before anything else happens: the loop body returns at once, the event
    log is unchanged (no HTTP request, no [gh] call, whatever the dates
    are), and the loop goes on with the next entry. *)
Theorem calendar_only_entry_skipped (w : World) (e : entry) (t : trace) :
  e !! "issue_repo" = None ->
  open_issues_body w e t = (Ret tt, t) /\
  forall rest, for_each (open_issues_body w) (e :: rest) t
               = for_each (open_issues_body w) rest t.
Proof.
  intros H.
  assert (Hb : open_issues_body w e t = (Ret tt, t)).
  { unfold open_issues_body. now rewrite H. }
  split; [exact Hb|]. intros rest. now rewrite for_each_cons, Hb.
Qed.

Lemma calendar_only_entry_skipped_witness :
  delete "issue_repo" Samples.foo !! "issue_repo" = None /\
  open_issues_body Samples.offline (delete "issue_repo" Samples.foo) [] = (Ret tt, []) /\
  forall rest, for_each (open_issues_body Samples.offline) (delete "issue_repo" Samples.foo :: rest) []
               = for_each (open_issues_body Samples.offline) rest [].
Proof.
  assert (H : delete "issue_repo" Samples.foo !! "issue_repo" = None)
    by (vm_compute; reflexivity).
  split; [exact H|].
  exact (calendar_only_entry_skipped Samples.offline _ [] H).
Defined.

(* ===================================================================== *)
(** ** The credential check *)
(* ===================================================================== *)

Lemma calendar_loop_getenv (w : World) g entries cal t :
  calendar_loop (with_getenv w g) entries cal t = calendar_loop w entries cal t.
Proof.
  revert cal t. induction entries as [|e rest IH]; intros cal t; [reflexivity|].
  cbn [calendar_loop]. unfold bind.
  change (calendar_body (with_getenv w g) e t) with (calendar_body w e t).
  destruct (calendar_body w e t) as [[evt|x] t1]; [|reflexivity].
  apply IH.
Qed.

(** C9. Without [GH_TOKEN] the notification flow prints its diagnostic on
    standard error and exits with status 1 before any entry is looked at;
    the calendar flow never reads the environment: it behaves the same
    under every environment. *)
Theorem missing_token_is_fatal_for_open_issues_only
    (w : World) (entries : list entry) (dest : string) (t : trace) :
  getenv w "GH_TOKEN" = None ->
  _open_issues w entries t
    = (Raise (SystemExit 1), t ++ [EvStderr "ERROR: GH_TOKEN env var not set"])
  /\ forall g, _calendar (with_getenv w g) entries dest t = _calendar w entries dest t.
Proof.
  intros H. split.
  - unfold _open_issues. rewrite H. reflexivity.
  - intros g. unfold _calendar, bind. rewrite calendar_loop_getenv.
    destruct (calendar_loop w entries [] t) as [[cal|x] t1]; reflexivity.
Qed.

Lemma missing_token_is_fatal_for_open_issues_only_witness :
  getenv Samples.offline "GH_TOKEN" = None /\
  _open_issues Samples.offline [Samples.foo] []
    = (Raise (SystemExit 1), [EvStderr "ERROR: GH_TOKEN env var not set"]).
Proof.
  split; [reflexivity|].
  exact (proj1 (missing_token_is_fatal_for_open_issues_only
                  Samples.offline [Samples.foo] "eol.ics" [] eq_refl)).
Defined.

(* ===================================================================== *)
(** ** The resolver *)
(* ===================================================================== *)

Lemma py_eq_str_true v s : py_eq_str v s = true <-> v = VStr s.
Proof.
  destruct v; simpl; try (split; [discriminate|intros [=]]).
  rewrite String.eqb_eq. split; [now intros ->|now intros [= ->]].
Qed.

Lemma source_is_manual (e : entry) :
  py_eq_str (default (VStr "api") (e !! "source")) "manual" = true
  <-> e !! "source" = Some (VStr "manual").
Proof.
  rewrite py_eq_str_true. destruct (e !! "source") as [v|]; simpl.
  - split; [now intros ->|now intros [= ->]].
  - split; discriminate.
Qed.

(** The API branch calls [requests.get] once, with the entry's endpoint
    and a timeout of 10 seconds, unless the endpoint is missing. *)
Lemma resolve_api_trace (w : World) (e : entry) t :
  match e !! "api_endpoint" with
  | Some ep => snd (resolve_api w e t) = t ++ [EvHttpGet ep 10]
  | None => resolve_api w e t = (Raise (KeyError "api_endpoint"), t)
  end.
Proof.
  unfold resolve_api, bind, lift, requests_get, ret, raise. simpl.
  destruct (e !! "api_endpoint") as [ep|]; [|reflexivity].
  destruct (http w t ep 10) as [x|rv]; [reflexivity|].
  destruct (raise_for_status rv); [|reflexivity].
  destruct (response_json rv) as [payload|]; [|reflexivity].
  destruct (payload_releases w ep payload) as [releases|]; [|reflexivity].
  destruct (e !! "version") as [v|]; [|reflexivity].
  destruct (py_iter releases) as [rels|]; [|reflexivity].
  destruct (scan_releases w e (py_str w v) rels) as [[d|]|]; try reflexivity.
  destruct (e !! "product"); reflexivity.
Qed.

Lemma resolve_eol_api_branch (w : World) (e : entry) t :
  e !! "source" <> Some (VStr "manual") -> _resolve_eol w e t = resolve_api w e t.
Proof.
  intros H. unfold _resolve_eol.
  destruct (py_eq_str (default (VStr "api") (e !! "source")) "manual") eqn:E;
    [|reflexivity].
  apply source_is_manual in E. contradiction.
Qed.

Lemma resolve_eol_manual_branch (w : World) (e : entry) t :
  e !! "source" = Some (VStr "manual") ->
  _resolve_eol w e t = (obind (getitem (VDict e) "eol_date") _iso, t).
Proof.
  intros H. unfold _resolve_eol. apply source_is_manual in H. rewrite H.
  unfold bind, lift. simpl.
  destruct (e !! "eol_date"); reflexivity.
Qed.

(** C10. Only the exact string ["manual"] in [source] selects the manual
    override, which parses [eol_date] without touching the network.  An
    absent [source], or any other value, runs the API branch: it requires
    [api_endpoint] (a [KeyError] otherwise) and its first act is the
    request to that endpoint. *)
Theorem only_exact_manual_selects_override (w : World) (e : entry) (t : trace) :
  (e !! "source" <> Some (VStr "manual") ->
     _resolve_eol w e t = resolve_api w e t /\
     (e !! "api_endpoint" = None ->
        _resolve_eol w e t = (Raise (KeyError "api_endpoint"), t)) /\
     (forall ep, e !! "api_endpoint" = Some ep ->
        snd (_resolve_eol w e t) = t ++ [EvHttpGet ep 10])) /\
  (e !! "source" = Some (VStr "manual") ->
     _resolve_eol w e t = (obind (getitem (VDict e) "eol_date") _iso, t)).
Proof.
  split; intros H.
  - rewrite (resolve_eol_api_branch w e t H). split; [reflexivity|].
    pose proof (resolve_api_trace w e t) as Ht.
    split.
    + intros Hn. now rewrite Hn in Ht.
    + intros ep Hep. now rewrite Hep in Ht.
  - now apply resolve_eol_manual_branch.
Qed.

Lemma payload_releases_present (w : World) ep payload x :
  result_releases payload = Some x -> payload_releases w ep payload = Ret x.
Proof.
  unfold result_releases, payload_releases.
  destruct payload as [| | | | | |m]; try discriminate. simpl.
  destruct (m !! "result") as [[| | | | | |r]|]; try discriminate. simpl.
  now intros ->.
Qed.

Lemma payload_releases_absent (w : World) ep payload :
  result_releases payload = None ->
  payload_releases w ep payload =
  Raise (ValueError (Some
    ("Unexpected schema from " +:+ py_str w ep +:+ "; expected result.releases"))).
Proof.
  unfold result_releases, payload_releases.
  destruct payload as [| | | | | |m]; try reflexivity. simpl.
  destruct (m !! "result") as [[| | | | | |r]|]; try reflexivity. simpl.
  now intros ->.
Qed.

Lemma scan_releases_skip (w : World) e version pre rest :
  forallb (other_release version) pre = true ->
  scan_releases w e version (pre ++ rest) = scan_releases w e version rest.
Proof.
  induction pre as [|rel pre IH]; [reflexivity|].
  cbn [forallb]. intros [Hrel Hpre]%andb_prop.
  destruct rel as [| | | | | |m]; try discriminate.
  simpl in Hrel. apply negb_true_iff in Hrel.
  cbn [app scan_releases py_get obind]. rewrite Hrel. now apply IH.
Qed.

Lemma scan_releases_hit (w : World) e version rel eol_str post :
  named_release version rel = Some eol_str ->
  scan_releases w e version (rel :: post) =
  if negb (truthy eol_str) then
    obind (getitem (VDict e) "product") (fun product =>
      Raise (ValueError (Some
        ("eolFrom missing for " +:+ py_str w product +:+ " " +:+ version))))
  else obind (_iso eol_str) (fun d => Ret (Some d)).
Proof.
  destruct rel as [| | | | | |m]; try discriminate. simpl.
  destruct (py_eq_str (default VNone (m !! "name")) version); [|discriminate].
  now intros [= <-].
Qed.

(** The API branch up to the scan of the releases. *)
Lemma resolve_api_scan (w : World) (e : entry) t ep rv payload releases v rels :
  e !! "api_endpoint" = Some ep ->
  http w t ep 10 = HttpReturn rv ->
  error_status (status_code rv) = false ->
  json_body rv = Some payload ->
  result_releases payload = Some releases ->
  e !! "version" = Some v ->
  py_iter releases = Ret rels ->
  resolve_api w e t =
  match scan_releases w e (py_str w v) rels with
  | Ret (Some d) => (Ret d, t ++ [EvHttpGet ep 10])
  | Ret None =>
      match e !! "product" with
      | Some product =>
          (Raise (ValueError (Some
             (py_str w product +:+ " " +:+ py_str w v +:+ " not found @ " +:+ py_str w ep))),
           t ++ [EvHttpGet ep 10])
      | None => (Raise (KeyError "product"), t ++ [EvHttpGet ep 10])
      end
  | Raise x => (Raise x, t ++ [EvHttpGet ep 10])
  end.
Proof.
  intros Hep Hhttp Hst Hjs Hrel Hv Hit.
  unfold resolve_api, bind, lift, requests_get, ret, raise. simpl.
  rewrite Hep, Hhttp. unfold raise_for_status, response_json.
  rewrite Hst, Hjs.
  rewrite (payload_releases_present w ep payload releases Hrel), Hv, Hit.
  destruct (scan_releases w e (py_str w v) rels) as [[d|]|x]; try reflexivity.
  destruct (e !! "product"); reflexivity.
Qed.

(** C2. For an entry on the API branch whose endpoint answers with a
    payload of shape [result.releases], the resolver returns the parsed
    [eolFrom] of the first release, in list order, whose [name] is the
    string [str(version)], and the run has made exactly one request, to
    the entry's endpoint.  The releases after that one are not looked
    at. *)
Theorem resolve_api_first_match
    (w : World) (e : entry) (t : trace) (ep v : value) (rv : response)
    (payload rel : value) (pre post : list value) (s : string) (d : date) :
  e !! "source" <> Some (VStr "manual") ->
  e !! "api_endpoint" = Some ep ->
  e !! "version" = Some v ->
  http w t ep 10 = HttpReturn rv ->
  error_status (status_code rv) = false ->
  json_body rv = Some payload ->
  result_releases payload = Some (VList (pre ++ rel :: post)) ->
  forallb (other_release (py_str w v)) pre = true ->
  named_release (py_str w v) rel = Some (VStr s) ->
  fromisoformat s = Some d ->
  _resolve_eol w e t = (Ret d, t ++ [EvHttpGet ep 10]).
Proof.
  intros Hsrc Hep Hv Hhttp Hst Hjs Hrel Hpre Hhit Hd.
  rewrite (resolve_eol_api_branch w e t Hsrc).
  rewrite (resolve_api_scan w e t ep rv payload _ v _ Hep Hhttp Hst Hjs Hrel Hv eq_refl).
  rewrite (scan_releases_skip w e _ pre _ Hpre).
  rewrite (scan_releases_hit w e _ rel _ post Hhit).
  assert (Hs : truthy (VStr s) = true).
  { destruct s; [discriminate Hd|reflexivity]. }
  rewrite Hs. simpl. now rewrite Hd.
Qed.

Lemma resolve_api_first_match_witness :
  _resolve_eol (Samples.online 200 (Some Samples.payload_many) []) Samples.bar []
  = (Ret (Date 2025 5 1), [EvHttpGet Samples.endpoint 10]).
Proof.
  apply (resolve_api_first_match
           (Samples.online 200 (Some Samples.payload_many) []) Samples.bar []
           Samples.endpoint (VStr "2.0") (Response 200 (Some Samples.payload_many))
           Samples.payload_many (Samples.release "2.0" (VStr "2025-05-01"))
           [Samples.release "2" (VStr "2024-01-01"); Samples.release "2.00" (VStr "2024-02-02")]
           [Samples.release "2.0" (VStr "2030-01-01")]
           "2025-05-01" (Date 2025 5 1)).
  - vm_compute. discriminate.
  - vm_compute. reflexivity.
  - vm_compute. reflexivity.
  - reflexivity.
  - reflexivity.
  - reflexivity.
  - vm_compute. reflexivity.
  - vm_compute. reflexivity.
  - vm_compute. reflexivity.
  - vm_compute. reflexivity.
Defined.

Lemma resolve_api_http_error (w : World) (e : entry) t ep rv :
  e !! "api_endpoint" = Some ep ->
  http w t ep 10 = HttpReturn rv ->
  error_status (status_code rv) = true ->
  resolve_api w e t = (Raise (HTTPError (status_code rv)), t ++ [EvHttpGet ep 10]).
Proof.
  intros Hep Hhttp Hst.
  unfold resolve_api, bind, lift, requests_get. simpl.
  rewrite Hep, Hhttp. unfold raise_for_status. now rewrite Hst.
Qed.

Lemma resolve_api_schema_error (w : World) (e : entry) t ep rv payload :
  e !! "api_endpoint" = Some ep ->
  http w t ep 10 = HttpReturn rv ->
  error_status (status_code rv) = false ->
  json_body rv = Some payload ->
  result_releases payload = None ->
  resolve_api w e t =
  (Raise (ValueError (Some
     ("Unexpected schema from " +:+ py_str w ep +:+ "; expected result.releases"))),
   t ++ [EvHttpGet ep 10]).
Proof.
  intros Hep Hhttp Hst Hjs Hrel.
  unfold resolve_api, bind, lift, requests_get. simpl.
  rewrite Hep, Hhttp. unfold raise_for_status, response_json.
  rewrite Hst, Hjs.
  now rewrite (payload_releases_absent w ep payload Hrel).
Qed.

(** C3, amended.  On the API branch the resolver raises, and returns no
    date, when the status is a client or server error (400 to 599); when
    the payload lacks [result] or [result.releases] (the message names
    the endpoint); when no release record is named [str(version)] (the
    message names product, version and endpoint); and when the first
    record so named has a missing or empty [eolFrom]. *)
Theorem resolve_api_failures
    (w : World) (e : entry) (t : trace) (ep : value) (rv : response) :
  e !! "source" <> Some (VStr "manual") ->
  e !! "api_endpoint" = Some ep ->
  http w t ep 10 = HttpReturn rv ->
  let t' := t ++ [EvHttpGet ep 10] in
  (error_status (status_code rv) = true ->
     _resolve_eol w e t = (Raise (HTTPError (status_code rv)), t')) /\
  (forall payload,
     error_status (status_code rv) = false ->
     json_body rv = Some payload ->
     result_releases payload = None ->
     _resolve_eol w e t =
     (Raise (ValueError (Some
        ("Unexpected schema from " +:+ py_str w ep +:+ "; expected result.releases"))),
      t')) /\
  (forall payload rels v product,
     error_status (status_code rv) = false ->
     json_body rv = Some payload ->
     result_releases payload = Some (VList rels) ->
     e !! "version" = Some v ->
     e !! "product" = Some product ->
     (forallb (other_release (py_str w v)) rels = true ->
        _resolve_eol w e t =
        (Raise (ValueError (Some
           (py_str w product +:+ " " +:+ py_str w v +:+ " not found @ " +:+ py_str w ep))),
         t')) /\
     (forall pre rel post eol_str,
        rels = pre ++ rel :: post ->
        forallb (other_release (py_str w v)) pre = true ->
        named_release (py_str w v) rel = Some eol_str ->
        truthy eol_str = false ->
        _resolve_eol w e t =
        (Raise (ValueError (Some
           ("eolFrom missing for " +:+ py_str w product +:+ " " +:+ py_str w v))),
         t'))).
Proof.
  intros Hsrc Hep Hhttp t'. subst t'.
  rewrite (resolve_eol_api_branch w e t Hsrc).
  split; [|split].
  - now apply resolve_api_http_error.
  - intros payload Hst Hjs Hrel. now apply (resolve_api_schema_error w e t ep rv payload).
  - intros payload rels v product Hst Hjs Hrel Hv Hp.
    rewrite (resolve_api_scan w e t ep rv payload _ v rels Hep Hhttp Hst Hjs Hrel Hv eq_refl).
    split.
    + intros Hall.
      rewrite <- (app_nil_r rels), (scan_releases_skip w e _ rels [] Hall).
      simpl. now rewrite Hp.
    + intros pre rel post eol_str -> Hpre Hhit Hfalsy.
      rewrite (scan_releases_skip w e _ pre _ Hpre).
      rewrite (scan_releases_hit w e _ rel eol_str post Hhit).
      rewrite Hfalsy. simpl. now rewrite Hp.
Qed.

(** The claim as written asks for an error on every status outside 200 to
    299.  A 300 answer that carries the payload of scenario 3 is resolved
    to a date. *)
Lemma non_2xx_status_can_resolve :
  ~ (200 <= 300 < 300)%Z /\
  _resolve_eol (Samples.online 300 (Some Samples.payload3) []) Samples.bar []
  = (Ret (Date 2025 5 1), [EvHttpGet Samples.endpoint 10]).
Proof. split; [lia|]. vm_compute. reflexivity. Qed.

Lemma resolve_api_failures_witness :
  let bare := VDict (<["name" := VStr "2.0"]> ∅) in
  let get := [EvHttpGet Samples.endpoint 10] in
  _resolve_eol (Samples.online 404 (Some Samples.payload3) []) Samples.bar []
    = (Raise (HTTPError 404), get) /\
  _resolve_eol (Samples.online 200 (Some (VDict ∅)) []) Samples.bar []
    = (Raise (ValueError (Some
        "Unexpected schema from https://endoflife.date/api/v1/products/bar; expected result.releases")),
       get) /\
  _resolve_eol (Samples.online 200 (Some Samples.payload3) [])
      (<["version" := VStr "9.9"]> Samples.bar) []
    = (Raise (ValueError (Some
        "Bar 9.9 not found @ https://endoflife.date/api/v1/products/bar")), get) /\
  _resolve_eol (Samples.online 200 (Some (Samples.releases_payload [bare])) []) Samples.bar []
    = (Raise (ValueError (Some "eolFrom missing for Bar 2.0")), get) /\
  _resolve_eol (Samples.online 200
      (Some (Samples.releases_payload [Samples.release "2.0" (VStr EmptyString)])) [])
      Samples.bar []
    = (Raise (ValueError (Some "eolFrom missing for Bar 2.0")), get).
Proof.
  intros bare get.
  assert (Hsrc : forall e : entry, e !! "source" = None -> e !! "source" <> Some (VStr "manual"))
    by (intros e ->; discriminate).
  split; [|split; [|split; [|split]]].
  - refine (proj1 (resolve_api_failures
      (Samples.online 404 (Some Samples.payload3) []) Samples.bar [] Samples.endpoint
      (Response 404 (Some Samples.payload3)) (Hsrc Samples.bar eq_refl) eq_refl eq_refl) eq_refl).
  - refine (proj1 (proj2 (resolve_api_failures
      (Samples.online 200 (Some (VDict ∅)) []) Samples.bar [] Samples.endpoint
      (Response 200 (Some (VDict ∅))) (Hsrc Samples.bar eq_refl) eq_refl eq_refl))
      (VDict ∅) eq_refl eq_refl eq_refl).
  - refine (proj1 (proj2 (proj2 (resolve_api_failures
      (Samples.online 200 (Some Samples.payload3) [])
      (<["version" := VStr "9.9"]> Samples.bar) [] Samples.endpoint
      (Response 200 (Some Samples.payload3))
      (Hsrc (<["version" := VStr "9.9"]> Samples.bar) eq_refl) eq_refl eq_refl))
      Samples.payload3 [Samples.release "2.0" (VStr "2025-05-01")] (VStr "9.9") (VStr "Bar")
      eq_refl eq_refl eq_refl eq_refl eq_refl) eq_refl).
  - refine (proj2 (proj2 (proj2 (resolve_api_failures
      (Samples.online 200 (Some (Samples.releases_payload [bare])) [])
      Samples.bar [] Samples.endpoint
      (Response 200 (Some (Samples.releases_payload [bare]))) (Hsrc Samples.bar eq_refl) eq_refl eq_refl))
      (Samples.releases_payload [bare]) [bare] (VStr "2.0") (VStr "Bar")
      eq_refl eq_refl eq_refl eq_refl eq_refl)
      [] bare [] VNone eq_refl eq_refl eq_refl eq_refl).
  - refine (proj2 (proj2 (proj2 (resolve_api_failures
      (Samples.online 200
         (Some (Samples.releases_payload [Samples.release "2.0" (VStr EmptyString)])) [])
      Samples.bar [] Samples.endpoint
      (Response 200
         (Some (Samples.releases_payload [Samples.release "2.0" (VStr EmptyString)])))
      (Hsrc Samples.bar eq_refl) eq_refl eq_refl))
      (Samples.releases_payload [Samples.release "2.0" (VStr EmptyString)])
      [Samples.release "2.0" (VStr EmptyString)] (VStr "2.0") (VStr "Bar")
      eq_refl eq_refl eq_refl eq_refl eq_refl)
      [] (Samples.release "2.0" (VStr EmptyString)) [] (VStr EmptyString)
      eq_refl eq_refl eq_refl eq_refl).
Defined.

Lemma only_exact_manual_selects_override_witness :
  let typo := <["source" := VStr "Manual"]> Samples.foo in
  typo !! "source" <> Some (VStr "manual") /\
  typo !! "api_endpoint" = None /\
  _resolve_eol Samples.offline typo [] = (Raise (KeyError "api_endpoint"), []) /\
  Samples.foo !! "source" = Some (VStr "manual") /\
  _resolve_eol Samples.offline Samples.foo [] = (Ret (Date 2024 1 1), []).
Proof.
  intros typo.
  assert (H1 : typo !! "source" <> Some (VStr "manual")) by (vm_compute; discriminate).
  assert (H2 : typo !! "api_endpoint" = None) by (vm_compute; reflexivity).
  assert (H3 : Samples.foo !! "source" = Some (VStr "manual")) by (vm_compute; reflexivity).
  split; [exact H1|]. split; [exact H2|].
  split; [|split; [exact H3|]].
  - exact (proj1 (proj2 (proj1 (only_exact_manual_selects_override
                                  Samples.offline typo []) H1)) H2).
  - exact (proj2 (only_exact_manual_selects_override Samples.offline Samples.foo []) H3).
Defined.

(* ===================================================================== *)
(** ** The two loops *)
(* ===================================================================== *)

Lemma for_each_app {A} (body : A -> M unit) l1 l2 t :
  for_each body (l1 ++ l2) t =
  match for_each body l1 t with
  | (Ret _, t') => for_each body l2 t'
  | (Raise x, t') => (Raise x, t')
  end.
Proof.
  revert t. induction l1 as [|a l1 IH]; intros t; [reflexivity|].
  cbn [app]. rewrite !for_each_cons.
  destruct (body a t) as [[[]|x] t1]; [apply IH|reflexivity].
Qed.

Lemma calendar_loop_app (w : World) l1 l2 cal t :
  calendar_loop w (l1 ++ l2) cal t =
  match calendar_loop w l1 cal t with
  | (Ret cal', t') => calendar_loop w l2 cal' t'
  | (Raise x, t') => (Raise x, t')
  end.
Proof.
  revert cal t. induction l1 as [|a l1 IH]; intros cal t; [reflexivity|].
  cbn [app calendar_loop]. unfold bind.
  destruct (calendar_body w a t) as [[evt|x] t1]; [apply IH|reflexivity].
Qed.

Lemma open_issues_Ret (w : World) entries t t1 :
  _open_issues w entries t = (Ret tt, t1) ->
  forall l, _open_issues w l = for_each (open_issues_body w) l.
Proof.
  unfold _open_issues.
  destruct (getenv w "GH_TOKEN") as [[|c tok]|]; try discriminate.
  reflexivity.
Qed.

(** C6, amended.  Both flows take the entries one after the other, in
    catalog order, up to the first entry that fails: once the entries
    before [e] are done, the run continues with [e] on the log they left
    and, if [e] succeeds, with the rest; if [e] raises, the run ends at
    once with that exception, whatever the rest of the catalog is, and
    the calendar file is not written. *)
Theorem entries_in_order_until_first_failure
    (w : World) (done : list entry) (e : entry) (rest : list entry)
    (dest : string) (t t1 : trace) (cal1 : list ics_event) :
  (_open_issues w done t = (Ret tt, t1) ->
     _open_issues w (done ++ e :: rest) t =
     match open_issues_body w e t1 with
     | (Ret _, t2) => for_each (open_issues_body w) rest t2
     | (Raise x, t2) => (Raise x, t2)
     end) /\
  (calendar_loop w done [] t = (Ret cal1, t1) ->
     _calendar w (done ++ e :: rest) dest t =
     match calendar_body w e t1 with
     | (Ret evt, t2) =>
         match calendar_loop w rest (cal1 ++ [evt]) t2 with
         | (Ret cal, t3) => write_text w dest (ics_serialize w cal) t3
         | (Raise x, t3) => (Raise x, t3)
         end
     | (Raise x, t2) => (Raise x, t2)
     end).
Proof.
  split; intros H.
  - pose proof (open_issues_Ret w done t t1 H) as E.
    rewrite (E done) in H. rewrite (E (done ++ e :: rest)).
    rewrite for_each_app, H, for_each_cons. reflexivity.
  - unfold _calendar, bind. rewrite calendar_loop_app, H.
    cbn [calendar_loop]. unfold bind.
    destruct (calendar_body w e t1) as [[evt|x] t2]; reflexivity.
Qed.

Lemma entries_in_order_until_first_failure_witness :
  let w := Samples.online 404 None [] in
  _open_issues w [] [] = (Ret tt, []) /\
  _open_issues w ([] ++ Samples.bar :: [Samples.foo]) []
    = (Raise (HTTPError 404), [EvHttpGet Samples.endpoint 10]) /\
  calendar_loop w [] [] [] = (Ret [], []) /\
  _calendar w ([] ++ Samples.bar :: [Samples.foo]) "eol.ics" []
    = (Raise (HTTPError 404),
       [EvStdout "<container>"; EvHttpGet Samples.endpoint 10]).
Proof.
  intros w.
  assert (H1 : _open_issues w [] [] = (Ret tt, [])) by reflexivity.
  assert (H2 : calendar_loop w [] [] [] = (Ret [], [])) by reflexivity.
  split; [exact H1|]. split; [|split; [exact H2|]].
  - exact (proj1 (entries_in_order_until_first_failure
                    w [] Samples.bar [Samples.foo] "eol.ics" [] [] []) H1).
  - exact (proj2 (entries_in_order_until_first_failure
                    w [] Samples.bar [Samples.foo] "eol.ics" [] [] []) H2).
Defined.

(** The claim as written lets the entries after a failing one be processed.
    With an endpoint that answers 404 for the first entry, the second one,
    which on its own leads to an issue, is never reached. *)
Lemma failure_aborts_later_entries :
  let w := Samples.online 404 None [] in
  let title := "Foo 1.0 reaches EOL on 2024-01-01" in
  let repo := VStr "org/repo" in
  _open_issues w [Samples.foo] []
    = (Ret tt,
       [EvRun (issue_list_cmd repo title);
        EvRun (issue_create_cmd repo title
                 (BODY_TMPL "Foo" "1.0" "2024-01-01" "manual entry"));
        EvStdout "Created issue in org/repo: Foo 1.0 reaches EOL on 2024-01-01"]) /\
  _open_issues w [Samples.bar; Samples.foo] []
    = (Raise (HTTPError 404), [EvHttpGet Samples.endpoint 10]).
Proof. split; vm_compute; reflexivity. Qed.

(* ===================================================================== *)
(** ** The decision to notify and the publisher *)
(* ===================================================================== *)

Lemma open_issues_body_eligible (w : World) (e : entry) t repo warn eol t1 :
  e !! "issue_repo" = Some repo ->
  truthy repo = true ->
  py_int w (default (VInt 30) (e !! "warn_days")) = Ret warn ->
  _resolve_eol w e t = (Ret eol, t1) ->
  open_issues_body w e t =
  if (warn <? sub_days eol (today w t1))%Z then (Ret tt, t1)
  else notify w e repo eol t1.
Proof.
  intros Hrepo Htruthy Hwarn Hres.
  unfold open_issues_body. rewrite Hrepo. simpl. rewrite Htruthy. simpl.
  rewrite Hwarn, bind_lift_Ret.
  rewrite (bind_Ret _ _ _ _ _ Hres).
  unfold bind at 1. unfold _days_until.
  destruct (warn <? sub_days eol (today w t1))%Z; reflexivity.
Qed.

Lemma issue_exists_trace (w : World) repo title t :
  snd (_issue_exists w repo title t) = t ++ [EvRun (issue_list_cmd repo title)].
Proof.
  unfold _issue_exists, bind, subprocess_run_check, raise, lift, ret.
  destruct (subprocess w t (issue_list_cmd repo title)) as [x|rc out]; [reflexivity|].
  destruct (rc =? 0)%Z; [|reflexivity].
  destruct (json_loads w out) as [js|]; [|reflexivity].
  destruct (py_len js); reflexivity.
Qed.

Lemma create_issue_trace (w : World) repo title body t :
  snd (_create_issue w repo title body t)
  = t ++ [EvRun (issue_create_cmd repo title body)].
Proof.
  unfold _create_issue, bind, subprocess_run_check, ret.
  destruct (subprocess w t (issue_create_cmd repo title body)) as [x|rc out];
    [reflexivity|].
  destruct (rc =? 0)%Z; reflexivity.
Qed.

Lemma notify_run (w : World) (e : entry) repo eol t product version :
  e !! "product" = Some product ->
  e !! "version" = Some version ->
  let title := TITLE_TMPL (py_str w product) (py_str w version) (isoformat eol) in
  let body :=
    BODY_TMPL (py_str w product) (py_str w version) (isoformat eol)
      (py_str w (default (VStr "manual entry") (e !! "api_endpoint"))) in
  notify w e repo eol t =
  match _issue_exists w repo title t with
  | (Ret true, t2) =>
      (Ret tt, t2 ++ [EvStdout ("Issue already exists in " +:+ py_str w repo +:+ ": " +:+ title)])
  | (Ret false, t2) =>
      match _create_issue w repo title body t2 with
      | (Ret _, t3) =>
          (Ret tt, t3 ++ [EvStdout ("Created issue in " +:+ py_str w repo +:+ ": " +:+ title)])
      | (Raise x, t3) => (Raise x, t3)
      end
  | (Raise x, t2) => (Raise x, t2)
  end.
Proof.
  intros Hp Hv title body.
  unfold notify. simpl. rewrite Hp, Hv, !bind_lift_Ret.
  fold title. fold body. unfold bind at 1.
  destruct (_issue_exists w repo title t) as [[[|]|x] t2]; reflexivity.
Qed.

(** A notification that ends normally has written to the log. *)
Lemma notify_not_silent (w : World) (e : entry) repo eol t :
  notify w e repo eol t <> (Ret tt, t).
Proof.
  unfold notify, bind, lift. simpl.
  destruct (e !! "product") as [product|]; [|discriminate].
  destruct (e !! "version") as [version|]; [|discriminate].
  set (title := TITLE_TMPL _ _ _).
  pose proof (issue_exists_trace w repo title t) as Ht.
  destruct (_issue_exists w repo title t) as [[[|]|x] t2]; simpl in Ht; subst t2;
    [| |discriminate].
  - unfold print, emit. intros [= H].
    apply (f_equal length) in H. rewrite !length_app in H. simpl in H. lia.
  - set (body := BODY_TMPL _ _ _ _).
    pose proof (create_issue_trace w repo title body
                  (t ++ [EvRun (issue_list_cmd repo title)])) as Hc.
    destruct (_create_issue w repo title body _) as [[[]|x] t3]; simpl in Hc; subst t3;
      [|discriminate].
    unfold print, emit. intros [= H].
    apply (f_equal length) in H. rewrite !length_app in H. simpl in H. lia.
Qed.

(** C1. For an entry with a tracker repository, a threshold [warn] (30
    when [warn_days] is absent) and a resolved date [eol], the loop body
    goes on to the notification stage exactly when
    [(eol - today).days <= warn]: equality notifies, and there is no
    lower bound on the difference.  Otherwise the entry is passed over
    without a word. *)
Theorem notify_iff_within_warn_days
    (w : World) (e : entry) (t t1 : trace) (repo : value) (warn : Z) (eol : date) :
  e !! "issue_repo" = Some repo ->
  truthy repo = true ->
  py_int w (default (VInt 30) (e !! "warn_days")) = Ret warn ->
  _resolve_eol w e t = (Ret eol, t1) ->
  (open_issues_body w e t = notify w e repo eol t1
     <-> (sub_days eol (today w t1) <= warn)%Z) /\
  ((warn < sub_days eol (today w t1))%Z -> open_issues_body w e t = (Ret tt, t1)) /\
  (e !! "warn_days" = None -> warn = 30%Z).
Proof.
  intros Hrepo Htruthy Hwarn Hres.
  rewrite (open_issues_body_eligible w e t repo warn eol t1 Hrepo Htruthy Hwarn Hres).
  destruct (Z.ltb_spec warn (sub_days eol (today w t1))) as [Hlt|Hle].
  - split; [|split].
    + split; [|lia]. intros H. symmetry in H. now apply notify_not_silent in H.
    + reflexivity.
    + intros Hn. rewrite Hn in Hwarn. now injection Hwarn as <-.
  - split; [|split].
    + split; [intros _; exact Hle|reflexivity].
    + lia.
    + intros Hn. rewrite Hn in Hwarn. now injection Hwarn as <-.
Qed.

Lemma notify_iff_within_warn_days_witness :
  let w d := with_today Samples.offline d in
  let repo := VStr "org/repo" in
  let eol := Date 2024 1 1 in
  sub_days eol (Date 2023 12 2) = 30%Z /\
  open_issues_body (w (Date 2023 12 2)) Samples.foo []
    = notify (w (Date 2023 12 2)) Samples.foo repo eol [] /\
  sub_days eol (Date 2023 12 1) = 31%Z /\
  open_issues_body (w (Date 2023 12 1)) Samples.foo [] = (Ret tt, []) /\
  sub_days eol (Date 9999 12 31) = (-2913173)%Z /\
  open_issues_body (w (Date 9999 12 31)) Samples.foo []
    = notify (w (Date 9999 12 31)) Samples.foo repo eol [] /\
  (delete "warn_days" Samples.foo !! "warn_days" = None -> 30%Z = 30%Z).
Proof.
  intros w repo eol.
  assert (Hrepo : Samples.foo !! "issue_repo" = Some repo) by (vm_compute; reflexivity).
  assert (Hwarn : forall d, py_int (w d) (default (VInt 30) (Samples.foo !! "warn_days")) = Ret 30%Z)
    by (intros d; vm_compute; reflexivity).
  assert (Hres : forall d, _resolve_eol (w d) Samples.foo [] = (Ret eol, []))
    by (intros d; vm_compute; reflexivity).
  split; [vm_compute; reflexivity|]. split.
  { apply (proj1 (notify_iff_within_warn_days (w (Date 2023 12 2)) Samples.foo [] [] repo 30 eol
                    Hrepo eq_refl (Hwarn _) (Hres _))).
    vm_compute. discriminate. }
  split; [vm_compute; reflexivity|]. split.
  { apply (proj1 (proj2 (notify_iff_within_warn_days (w (Date 2023 12 1)) Samples.foo [] [] repo 30 eol
                    Hrepo eq_refl (Hwarn _) (Hres _)))).
    vm_compute. reflexivity. }
  split; [vm_compute; reflexivity|]. split.
  { apply (proj1 (notify_iff_within_warn_days (w (Date 9999 12 31)) Samples.foo [] [] repo 30 eol
                    Hrepo eq_refl (Hwarn _) (Hres _))).
    vm_compute. discriminate. }
  assert (Hrepo' : delete "warn_days" Samples.foo !! "issue_repo" = Some repo)
    by (vm_compute; reflexivity).
  assert (Hwarn' : py_int (w eol) (default (VInt 30) (delete "warn_days" Samples.foo !! "warn_days"))
                   = Ret 30%Z) by (vm_compute; reflexivity).
  assert (Hres' : _resolve_eol (w eol) (delete "warn_days" Samples.foo) [] = (Ret eol, []))
    by (vm_compute; reflexivity).
  exact (proj2 (proj2 (notify_iff_within_warn_days (w eol) (delete "warn_days" Samples.foo)
                         [] [] repo 30 eol Hrepo' eq_refl Hwarn' Hres'))).
Defined.

(** C5. For an entry that has crossed its threshold, the tracker is asked
    once whether the computed title exists (a search over issues in every
    state).  If the answer is yes, no creation is attempted, the run
    prints the "already exists" line and the loop moves on to the next
    entry.  If the answer is no, the next event is the creation with that
    title and the templated body.  If the check itself fails, nothing is
    created either. *)
Theorem existing_title_suppresses_creation
    (w : World) (e : entry) (t t1 : trace) (repo product version : value)
    (warn : Z) (eol : date) :
  e !! "issue_repo" = Some repo ->
  truthy repo = true ->
  py_int w (default (VInt 30) (e !! "warn_days")) = Ret warn ->
  _resolve_eol w e t = (Ret eol, t1) ->
  (sub_days eol (today w t1) <= warn)%Z ->
  e !! "product" = Some product ->
  e !! "version" = Some version ->
  let title := TITLE_TMPL (py_str w product) (py_str w version) (isoformat eol) in
  let body :=
    BODY_TMPL (py_str w product) (py_str w version) (isoformat eol)
      (py_str w (default (VStr "manual entry") (e !! "api_endpoint"))) in
  let t2 := t1 ++ [EvRun (issue_list_cmd repo title)] in
  let said := EvStdout ("Issue already exists in " +:+ py_str w repo +:+ ": " +:+ title) in
  issue_list_cmd repo title !! 5%nat = Some (VStr "--state") /\
  issue_list_cmd repo title !! 6%nat = Some (VStr "all") /\
  (_issue_exists w repo title t1 = (Ret true, t2) ->
     open_issues_body w e t = (Ret tt, t2 ++ [said]) /\
     forall rest, for_each (open_issues_body w) (e :: rest) t
                  = for_each (open_issues_body w) rest (t2 ++ [said])) /\
  (_issue_exists w repo title t1 = (Ret false, t2) ->
     exists tail, snd (open_issues_body w e t)
                  = t2 ++ EvRun (issue_create_cmd repo title body) :: tail) /\
  (forall x, _issue_exists w repo title t1 = (Raise x, t2) ->
     open_issues_body w e t = (Raise x, t2)) /\
  snd (_issue_exists w repo title t1) = t2.
Proof.
  intros Hrepo Htruthy Hwarn Hres Hdue Hp Hv title body t2 said.
  rewrite (open_issues_body_eligible w e t repo warn eol t1 Hrepo Htruthy Hwarn Hres).
  apply Z.ltb_ge in Hdue. rewrite Hdue.
  rewrite (notify_run w e repo eol t1 product version Hp Hv).
  fold title. fold body.
  split; [reflexivity|]. split; [reflexivity|].
  split; [|split; [|split]].
  - intros Hdup. rewrite Hdup. split; [reflexivity|].
    intros rest. rewrite for_each_cons.
    rewrite (open_issues_body_eligible w e t repo warn eol t1 Hrepo Htruthy Hwarn Hres).
    rewrite Hdue, (notify_run w e repo eol t1 product version Hp Hv).
    fold title. now rewrite Hdup.
  - intros Hdup. rewrite Hdup.
    pose proof (create_issue_trace w repo title body t2) as Hc.
    destruct (_create_issue w repo title body t2) as [[[]|x] t3]; simpl in Hc; subst t3.
    + eexists. simpl. rewrite <- app_assoc. reflexivity.
    + exists []. reflexivity.
  - intros x Hdup. now rewrite Hdup.
  - apply issue_exists_trace.
Qed.

Lemma existing_title_suppresses_creation_witness :
  let hit := VDict (<["title" := VStr "Foo 1.0 reaches EOL on 2024-01-01"]> ∅) in
  let w := Samples.online 200 None [hit] in
  let repo := VStr "org/repo" in
  let title := "Foo 1.0 reaches EOL on 2024-01-01" in
  _issue_exists w repo title [] = (Ret true, [EvRun (issue_list_cmd repo title)]) /\
  open_issues_body w Samples.foo []
    = (Ret tt,
       [EvRun (issue_list_cmd repo title);
        EvStdout "Issue already exists in org/repo: Foo 1.0 reaches EOL on 2024-01-01"]).
Proof.
  intros hit w repo title.
  assert (Hdup : _issue_exists w repo title [] = (Ret true, [EvRun (issue_list_cmd repo title)]))
    by (vm_compute; reflexivity).
  split; [exact Hdup|].
  assert (Hrepo : Samples.foo !! "issue_repo" = Some repo) by (vm_compute; reflexivity).
  assert (Hwarn : py_int w (default (VInt 30) (Samples.foo !! "warn_days")) = Ret 30%Z)
    by (vm_compute; reflexivity).
  assert (Hres : _resolve_eol w Samples.foo [] = (Ret (Date 2024 1 1), []))
    by (vm_compute; reflexivity).
  assert (Hdue : (sub_days (Date 2024 1 1) (today w []) <= 30)%Z)
    by (vm_compute; discriminate).
  assert (Hp : Samples.foo !! "product" = Some (VStr "Foo")) by (vm_compute; reflexivity).
  assert (Hv : Samples.foo !! "version" = Some (VStr "1.0")) by (vm_compute; reflexivity).
  exact (proj1 (proj1 (proj2 (proj2
    (existing_title_suppresses_creation w Samples.foo [] [] repo (VStr "Foo") (VStr "1.0")
       30 (Date 2024 1 1) Hrepo eq_refl Hwarn Hres Hdue Hp Hv))) Hdup)).
Defined.

(** A resolved date without [api_endpoint] can only come from the manual
    override. *)
Lemma resolved_without_endpoint_is_manual (w : World) (e : entry) t eol t1 :
  _resolve_eol w e t = (Ret eol, t1) ->
  e !! "api_endpoint" = None ->
  e !! "source" = Some (VStr "manual").
Proof.
  intros Hres Hep.
  destruct (py_eq_str (default (VStr "api") (e !! "source")) "manual") eqn:E.
  - now apply source_is_manual.
  - assert (Hsrc : e !! "source" <> Some (VStr "manual")).
    { intros H. apply source_is_manual in H. congruence. }
    rewrite (resolve_eol_api_branch w e t Hsrc) in Hres.
    pose proof (resolve_api_trace w e t) as Ht. rewrite Hep in Ht. congruence.
Qed.

(** C7, amended.  When an issue is created for an entry, its body is the
    fixed template filled with product, version and EOL date, and the
    source reference is the entry's [api_endpoint] whenever the entry has
    that field; it is the literal "manual entry" exactly when the field is
    absent, which for a resolved entry means [source == manual]. *)
Theorem issue_body_source_reference
    (w : World) (e : entry) (t t1 : trace) (repo product version : value)
    (warn : Z) (eol : date) :
  e !! "issue_repo" = Some repo ->
  truthy repo = true ->
  py_int w (default (VInt 30) (e !! "warn_days")) = Ret warn ->
  _resolve_eol w e t = (Ret eol, t1) ->
  (sub_days eol (today w t1) <= warn)%Z ->
  e !! "product" = Some product ->
  e !! "version" = Some version ->
  let title := TITLE_TMPL (py_str w product) (py_str w version) (isoformat eol) in
  let t2 := t1 ++ [EvRun (issue_list_cmd repo title)] in
  _issue_exists w repo title t1 = (Ret false, t2) ->
  let source_ref :=
    match e !! "api_endpoint" with
    | Some ep => py_str w ep
    | None => "manual entry"
    end in
  let body :=
    BODY_TMPL (py_str w product) (py_str w version) (isoformat eol) source_ref in
  (exists tail, snd (open_issues_body w e t)
                = t2 ++ EvRun (issue_create_cmd repo title body) :: tail) /\
  (e !! "api_endpoint" = None -> e !! "source" = Some (VStr "manual")) /\
  (e !! "source" <> Some (VStr "manual") ->
     exists ep, e !! "api_endpoint" = Some ep /\ source_ref = py_str w ep).
Proof.
  intros Hrepo Htruthy Hwarn Hres Hdue Hp Hv title t2 Hdup source_ref body.
  assert (Hmanual : e !! "api_endpoint" = None -> e !! "source" = Some (VStr "manual"))
    by (apply (resolved_without_endpoint_is_manual w e t eol t1 Hres)).
  split; [|split; [exact Hmanual|]].
  - rewrite (open_issues_body_eligible w e t repo warn eol t1 Hrepo Htruthy Hwarn Hres).
    apply Z.ltb_ge in Hdue. rewrite Hdue.
    rewrite (notify_run w e repo eol t1 product version Hp Hv).
    fold title. rewrite Hdup.
    replace (py_str w (default (VStr "manual entry") (e !! "api_endpoint")))
      with source_ref by (unfold source_ref; destruct (e !! "api_endpoint"); reflexivity).
    fold body.
    pose proof (create_issue_trace w repo title body t2) as Hc.
    destruct (_create_issue w repo title body t2) as [[[]|x] t3]; simpl in Hc; subst t3.
    + eexists. simpl. rewrite <- app_assoc. reflexivity.
    + exists []. reflexivity.
  - intros Hsrc. unfold source_ref.
    destruct (e !! "api_endpoint") as [ep|]; [now exists ep|].
    now specialize (Hmanual eq_refl).
Qed.

(** The claim as written ties the literal "manual entry" to
    [source == manual].  A manual entry that also carries an
    [api_endpoint] gets the endpoint as its source reference. *)
Lemma manual_entry_with_endpoint_cites_endpoint :
  let e := <["api_endpoint" := Samples.endpoint]> Samples.foo in
  let w := Samples.online 200 None [] in
  let repo := VStr "org/repo" in
  let title := "Foo 1.0 reaches EOL on 2024-01-01" in
  e !! "source" = Some (VStr "manual") /\
  open_issues_body w e []
    = (Ret tt,
       [EvRun (issue_list_cmd repo title);
        EvRun (issue_create_cmd repo title
                 (BODY_TMPL "Foo" "1.0" "2024-01-01"
                    "https://endoflife.date/api/v1/products/bar"));
        EvStdout "Created issue in org/repo: Foo 1.0 reaches EOL on 2024-01-01"]) /\
  BODY_TMPL "Foo" "1.0" "2024-01-01" "https://endoflife.date/api/v1/products/bar"
    <> BODY_TMPL "Foo" "1.0" "2024-01-01" "manual entry".
Proof.
  split; [vm_compute; reflexivity|].
  split; [vm_compute; reflexivity|].
  vm_compute. discriminate.
Qed.

Lemma issue_body_source_reference_witness :
  let w := Samples.online 200 (Some Samples.payload3) [] in
  let repo := VStr "org/repo" in
  let title := "Bar 2.0 reaches EOL on 2025-05-01" in
  let body := BODY_TMPL "Bar" "2.0" "2025-05-01" "https://endoflife.date/api/v1/products/bar" in
  exists tail,
    snd (open_issues_body w Samples.bar [])
    = ([EvHttpGet Samples.endpoint 10] ++ [EvRun (issue_list_cmd repo title)])
      ++ EvRun (issue_create_cmd repo title body) :: tail.
Proof.
  intros w repo title body.
  assert (Hrepo : Samples.bar !! "issue_repo" = Some repo) by (vm_compute; reflexivity).
  assert (Hwarn : py_int w (default (VInt 30) (Samples.bar !! "warn_days")) = Ret 30%Z)
    by (vm_compute; reflexivity).
  assert (Hres : _resolve_eol w Samples.bar []
                 = (Ret (Date 2025 5 1), [EvHttpGet Samples.endpoint 10]))
    by (vm_compute; reflexivity).
  assert (Hdue : (sub_days (Date 2025 5 1) (today w [EvHttpGet Samples.endpoint 10]) <= 30)%Z)
    by (vm_compute; discriminate).
  assert (Hp : Samples.bar !! "product" = Some (VStr "Bar")) by (vm_compute; reflexivity).
  assert (Hv : Samples.bar !! "version" = Some (VStr "2.0")) by (vm_compute; reflexivity).
  assert (Hdup : _issue_exists w repo title [EvHttpGet Samples.endpoint 10]
                 = (Ret false, [EvHttpGet Samples.endpoint 10] ++ [EvRun (issue_list_cmd repo title)]))
    by (vm_compute; reflexivity).
  exact (proj1 (issue_body_source_reference w Samples.bar [] [EvHttpGet Samples.endpoint 10]
                  repo (VStr "Bar") (VStr "2.0") 30 (Date 2025 5 1)
                  Hrepo eq_refl Hwarn Hres Hdue Hp Hv Hdup)).
Defined.

(* ===================================================================== *)
(** ** Dates as text *)
(* ===================================================================== *)

Module DatetimeFacts.
Local Open Scope Z_scope.

Lemma digit_val_digit n : 0 <= n <= 9 -> digit_val (digit n) = Some n.
Proof.
  intros H. unfold digit_val, digit.
  rewrite nat_ascii_embedding by lia.
  rewrite Z2Nat.id by lia.
  replace (48 <=? 48 + n) with true by (symmetry; apply Z.leb_le; lia).
  replace (48 + n <=? 57) with true by (symmetry; apply Z.leb_le; lia).
  simpl. f_equal. lia.
Qed.

Lemma parse2_pad n k :
  0 <= n < 100 ->
  exists a b, pad2 n k = String a (String b k) /\ parse2 a b = Some n.
Proof.
  intros H. exists (digit (n / 10 mod 10)), (digit (n mod 10)).
  split; [reflexivity|]. unfold parse2.
  rewrite !digit_val_digit by (Z.div_mod_to_equations; lia).
  f_equal. Z.div_mod_to_equations. lia.
Qed.

Lemma parse4_pad n k :
  0 <= n < 10000 ->
  exists a b c d,
    pad4 n k = String a (String b (String c (String d k))) /\
    parse4 a b c d = Some n.
Proof.
  intros H.
  exists (digit (n / 1000 mod 10)), (digit (n / 100 mod 10)),
         (digit (n / 10 mod 10)), (digit (n mod 10)).
  split; [reflexivity|]. unfold parse4, parse2.
  rewrite !digit_val_digit by (Z.div_mod_to_equations; lia).
  f_equal. Z.div_mod_to_equations. lia.
Qed.

Lemma days_in_month_le y m : _days_in_month y m <= 31.
Proof.
  unfold _days_in_month, _DAYS_IN_MONTH.
  destruct ((m =? 2) && _is_leap y); [lia|].
  destruct m as [|p|p]; try lia.
  do 4 (try destruct p as [p|p|]); lia.
Qed.

Lemma valid_date_bounds d :
  valid_date d = true ->
  0 <= year d < 10000 /\ 0 <= month d < 100 /\ 0 <= day d < 100.
Proof.
  unfold valid_date, MINYEAR, MAXYEAR. intros H.
  repeat (apply andb_prop in H; destruct H as [H ?]).
  pose proof (days_in_month_le (year d) (month d)). lia.
Qed.

(** Parsing what [isoformat] printed gives the date back. *)
Lemma fromisoformat_isoformat d :
  valid_date d = true -> fromisoformat (isoformat d) = Some d.
Proof.
  intros Hv. destruct (valid_date_bounds d Hv) as (Hy & Hm & Hd).
  unfold isoformat.
  destruct (parse2_pad (day d) EmptyString Hd) as (d1 & d2 & -> & Ed).
  destruct (parse2_pad (month d) (String dash (String d1 (String d2 EmptyString))) Hm)
    as (m1 & m2 & -> & Em).
  destruct (parse4_pad (year d) (String dash (String m1 (String m2
              (String dash (String d1 (String d2 EmptyString)))))) Hy)
    as (y1 & y2 & y3 & y4 & -> & Ey).
  unfold fromisoformat. cbn [list_ascii_of_string].
  rewrite Ey, Em, Ed. cbn [Ascii.eqb dash andb]. simpl Ascii.eqb. cbn [andb].
  destruct d as [y m dd]. simpl in *. now rewrite Hv.
Qed.

Lemma isoformat_inj d1 d2 :
  valid_date d1 = true -> valid_date d2 = true ->
  isoformat d1 = isoformat d2 -> d1 = d2.
Proof.
  intros H1 H2 E.
  apply fromisoformat_isoformat in H1, H2. rewrite E in H1. congruence.
Qed.

Lemma isoformat_length d : String.length (isoformat d) = 10%nat.
Proof. reflexivity. Qed.

Lemma fromisoformat_valid s d : fromisoformat s = Some d -> valid_date d = true.
Proof.
  unfold fromisoformat.
  destruct (list_ascii_of_string s) as [|y1 [|y2 [|y3 [|y4 [|s1 [|m1 [|m2 [|s2 [|d1 [|d2 [|]]]]]]]]]]];
    try discriminate.
  destruct (Ascii.eqb s1 dash && Ascii.eqb s2 dash); [|discriminate].
  destruct (parse4 y1 y2 y3 y4); [|discriminate].
  destruct (parse2 m1 m2); [|discriminate].
  destruct (parse2 d1 d2); [|discriminate].
  destruct (valid_date _) eqn:E; [|discriminate].
  now intros [= <-].
Qed.

End DatetimeFacts.

Lemma iso_valid v d : _iso v = Ret d -> valid_date d = true.
Proof.
  destruct v as [| | |s| | |]; try discriminate. simpl.
  destruct (fromisoformat s) as [r|] eqn:E; [|discriminate].
  intros [= <-]. exact (DatetimeFacts.fromisoformat_valid s r E).
Qed.

Lemma scan_releases_valid (w : World) e version rels d :
  scan_releases w e version rels = Ret (Some d) -> valid_date d = true.
Proof.
  induction rels as [|rel rest IH]; [discriminate|].
  cbn [scan_releases].
  destruct (py_get rel "name") as [name|]; [|discriminate]. cbn [obind].
  destruct (py_eq_str name version); [|exact IH].
  destruct (py_get rel "eolFrom") as [eol_str|]; [|discriminate]. cbn [obind].
  destruct (negb (truthy eol_str)).
  - destruct (getitem (VDict e) "product"); discriminate.
  - destruct (_iso eol_str) as [r|] eqn:E; [|discriminate].
    intros [= <-]. exact (iso_valid eol_str r E).
Qed.

(** Every date the resolver returns went through the range check of the
    [date] constructor. *)
Lemma resolve_eol_valid (w : World) (e : entry) t d t' :
  _resolve_eol w e t = (Ret d, t') -> valid_date d = true.
Proof.
  unfold _resolve_eol.
  destruct (py_eq_str (default (VStr "api") (e !! "source")) "manual").
  - unfold bind, lift.
    destruct (getitem (VDict e) "eol_date") as [v|]; [|discriminate].
    destruct (_iso v) as [r|] eqn:E; [|discriminate].
    intros [= <- _]. exact (iso_valid v r E).
  - unfold resolve_api, bind, lift, requests_get, ret, raise.
    destruct (getitem (VDict e) "api_endpoint") as [ep|]; [|discriminate].
    destruct (http w t ep 10) as [x|rv]; [discriminate|].
    destruct (raise_for_status rv); [|discriminate].
    destruct (response_json rv) as [payload|]; [|discriminate].
    destruct (payload_releases w ep payload) as [releases|]; [|discriminate].
    destruct (getitem (VDict e) "version") as [v|]; [|discriminate].
    destruct (py_iter releases) as [rels|]; [|discriminate].
    destruct (scan_releases w e (py_str w v) rels) as [[r|]|] eqn:E; try discriminate.
    + intros [= <- _]. exact (scan_releases_valid w e _ rels r E).
    + destruct (getitem (VDict e) "product"); discriminate.
Qed.

(* ===================================================================== *)
(** ** The title as de-duplication key *)
(* ===================================================================== *)

Lemma append_length (a b : string) :
  String.length (a +:+ b) = String.length a + String.length b.
Proof.
  induction a as [|c a IH]; [reflexivity|].
  change (S (String.length (a +:+ b)) = S (String.length a + String.length b)).
  now rewrite IH.
Qed.

Lemma append_inj_same_length (a1 a2 b1 b2 : string) :
  String.length a1 = String.length a2 ->
  a1 +:+ b1 = a2 +:+ b2 -> a1 = a2 /\ b1 = b2.
Proof.
  revert a2. induction a1 as [|c a1 IH]; intros [|c2 a2]; try discriminate.
  - now intros _ H.
  - intros [= Hlen]. cbn. intros [= -> H].
    destruct (IH a2 Hlen H) as [-> ->]. now split.
Qed.

Lemma split_at_first_space (p1 p2 r1 r2 : string) :
  no_space p1 = true -> no_space p2 = true ->
  p1 +:+ String space r1 = p2 +:+ String space r2 -> p1 = p2 /\ r1 = r2.
Proof.
  revert p2. induction p1 as [|c p1 IH]; intros [|c2 p2]; cbn [no_space].
  - intros _ _. cbn. now intros [= ->].
  - intros _ [Hc _]%andb_prop. cbn. intros [= <- _].
    now rewrite Ascii.eqb_refl in Hc.
  - intros [Hc _]%andb_prop _. cbn. intros [= -> _].
    now rewrite Ascii.eqb_refl in Hc.
  - intros [_ H1]%andb_prop [_ H2]%andb_prop. cbn. intros [= -> H].
    destruct (IH p2 H1 H2 H) as [-> ->]. now split.
Qed.

(** C4. The title is the template ["{product} {version} reaches EOL on
    {eol_date}"] applied to the triple and nothing else, so equal triples
    give equal titles; and for products written without a space (the
    character that separates product from version in the template) and
    dates that passed the constructor's range check, equal titles come
    from equal triples only. *)
Theorem title_is_an_injective_key
    (p1 v1 p2 v2 : string) (d1 d2 : date) :
  no_space p1 = true -> no_space p2 = true ->
  valid_date d1 = true -> valid_date d2 = true ->
  TITLE_TMPL p1 v1 (isoformat d1)
    = p1 +:+ " " +:+ v1 +:+ " reaches EOL on " +:+ isoformat d1 /\
  (TITLE_TMPL p1 v1 (isoformat d1) = TITLE_TMPL p2 v2 (isoformat d2)
     <-> (p1, v1, d1) = (p2, v2, d2)).
Proof.
  intros Hp1 Hp2 Hd1 Hd2. split; [reflexivity|].
  split; [|now intros [= -> -> ->]].
  unfold TITLE_TMPL. intros H.
  apply (split_at_first_space p1 p2 _ _ Hp1 Hp2) in H. destruct H as [-> H].
  assert (Hlen : String.length v1 = String.length v2).
  { apply (f_equal String.length) in H.
    rewrite !append_length, !DatetimeFacts.isoformat_length in H. lia. }
  destruct (append_inj_same_length _ _ _ _ Hlen H) as [-> H'].
  apply String.app_inj in H'.
  now rewrite (DatetimeFacts.isoformat_inj d1 d2 Hd1 Hd2 H').
Qed.

Lemma title_is_an_injective_key_witness :
  TITLE_TMPL "Foo" "1.0" (isoformat (Date 2024 1 1)) = "Foo 1.0 reaches EOL on 2024-01-01" /\
  (TITLE_TMPL "Foo" "1.0" (isoformat (Date 2024 1 1))
     = TITLE_TMPL "Foo" "1.0.1" (isoformat (Date 2024 11 30))
   <-> ("Foo", "1.0", Date 2024 1 1) = ("Foo", "1.0.1", Date 2024 11 30)).
Proof.
  exact (title_is_an_injective_key "Foo" "1.0" "Foo" "1.0.1" (Date 2024 1 1) (Date 2024 11 30)
           eq_refl eq_refl eq_refl eq_refl).
Defined.

(** Without the proviso the key is ambiguous: a space inside the product
    name can be read as the separator. *)
Remark title_collision_with_space_in_product (eol_date : string) :
  TITLE_TMPL "Ubuntu Linux" "22.04" eol_date = TITLE_TMPL "Ubuntu" "Linux 22.04" eol_date.
Proof. reflexivity. Qed.

(* ===================================================================== *)
(** ** The end-to-end scenarios of the specification *)
(* ===================================================================== *)

(** Scenario 1: the manual entry, seventeen days before its EOL. *)
Example scenario_1_notifies :
  let w := with_today (Samples.online 200 None []) (Date 2023 12 15) in
  nth_error (snd (open_issues_body w Samples.foo [])) 0
  = Some (EvRun (issue_list_cmd (VStr "org/repo") "Foo 1.0 reaches EOL on 2024-01-01")).
Proof. vm_compute. reflexivity. Qed.

(** Scenario 2: the same entry on 2023-10-01 is passed over. *)
Example scenario_2_too_early :
  let w := with_today (Samples.online 200 None []) (Date 2023 10 1) in
  open_issues_body w Samples.foo [] = (Ret tt, []).
Proof. vm_compute. reflexivity. Qed.

(** Scenario 3: the API entry against the one-release payload. *)
Example scenario_3_resolves :
  fst (_resolve_eol (Samples.online 200 (Some Samples.payload3) []) Samples.bar [])
  = Ret (Date 2025 5 1).
Proof. vm_compute. reflexivity. Qed.

(* ===================================================================== *)
(** ** More on the resolver *)
(* ===================================================================== *)

Lemma resolve_eol_trace (w : World) (e : entry) t :
  snd (_resolve_eol w e t) = t ++ request_of e.
Proof.
  unfold _resolve_eol, request_of.
  destruct (py_eq_str (default (VStr "api") (e !! "source")) "manual").
  - unfold bind, lift. rewrite app_nil_r.
    destruct (getitem (VDict e) "eol_date") as [v|]; [|reflexivity].
    destruct (_iso v); reflexivity.
  - pose proof (resolve_api_trace w e t) as H.
    destruct (e !! "api_endpoint") as [ep|]; [exact H|].
    rewrite H. simpl. now rewrite app_nil_r.
Qed.

(** X1. Whatever the world answers and however the resolution ends, it
    appends to the log exactly the events [request_of e]: nothing for a
    manual entry or an entry without endpoint, otherwise one request to
    the entry's endpoint with a timeout of 10.  There is no second
    attempt after a failure. *)
Theorem resolution_sends_at_most_one_request (w : World) (e : entry) (t : trace) :
  snd (_resolve_eol w e t) = t ++ request_of e /\
  length (request_of e) <= 1 /\
  (forall ev, In ev (request_of e) ->
     e !! "source" <> Some (VStr "manual") /\
     exists ep, e !! "api_endpoint" = Some ep /\ ev = EvHttpGet ep 10).
Proof.
  split; [apply resolve_eol_trace|].
  unfold request_of.
  destruct (py_eq_str (default (VStr "api") (e !! "source")) "manual") eqn:E.
  - split; [simpl; lia|]. intros ev [].
  - assert (Hsrc : e !! "source" <> Some (VStr "manual")).
    { intros H. apply source_is_manual in H. congruence. }
    destruct (e !! "api_endpoint") as [ep|].
    + split; [simpl; lia|]. intros ev [<-|[]]. split; [exact Hsrc|]. now exists ep.
    + split; [simpl; lia|]. intros ev [].
Qed.

Lemma payload_releases_Ret (w : World) ep payload x :
  payload_releases w ep payload = Ret x -> result_releases payload = Some x.
Proof.
  destruct (result_releases payload) as [y|] eqn:E.
  - rewrite (payload_releases_present w ep payload y E). now intros [= ->].
  - now rewrite (payload_releases_absent w ep payload E).
Qed.

Lemma scan_releases_found (w : World) e version rels d :
  scan_releases w e version rels = Ret (Some d) ->
  exists pre rel post s,
    rels = pre ++ rel :: post /\
    forallb (other_release version) pre = true /\
    named_release version rel = Some (VStr s) /\
    fromisoformat s = Some d.
Proof.
  induction rels as [|rel rest IH]; [discriminate|].
  cbn [scan_releases].
  destruct rel as [| | | | | |m]; try discriminate. cbn [py_get obind].
  destruct (py_eq_str (default VNone (m !! "name")) version) eqn:Ename.
  - destruct (negb (truthy (default VNone (m !! "eolFrom")))) eqn:Etruthy.
    + destruct (getitem (VDict e) "product"); discriminate.
    + destruct (default VNone (m !! "eolFrom")) as [| | |s| | |] eqn:Eeol; try discriminate.
      simpl. destruct (fromisoformat s) as [r|] eqn:Eiso; [|discriminate].
      intros [= <-]. exists [], (VDict m), rest, s.
      split; [reflexivity|]. split; [reflexivity|].
      split; [|exact Eiso]. simpl. now rewrite Ename, Eeol.
  - intros H. destruct (IH H) as (pre & rel & post & s & -> & Hpre & Hrel & Hs).
    exists (VDict m :: pre), rel, post, s.
    split; [reflexivity|]. split; [|now split].
    simpl. now rewrite Ename, Hpre.
Qed.

Lemma iterated_dicts_are_a_list releases rels pre rel post :
  py_iter releases = Ret rels ->
  rels = pre ++ rel :: post ->
  is_dict rel = true ->
  releases = VList rels.
Proof.
  intros Hit -> Hrel.
  destruct releases as [| | |s| |l|m]; try discriminate; simpl in Hit.
  - injection Hit as Hit.
    assert (Hin : rel ∈ (λ c, VStr (String c EmptyString)) <$> list_ascii_of_string s).
    { rewrite Hit. set_solver. }
    apply list_elem_of_fmap in Hin as (c & -> & _). discriminate.
  - now injection Hit as ->.
  - injection Hit as Hit.
    assert (Hin : rel ∈ VStr <$> (map_to_list m).*1).
    { rewrite Hit. set_solver. }
    apply list_elem_of_fmap in Hin as (c & -> & _). discriminate.
Qed.

(** X2. A date returned on the API branch has exactly one origin: one
    request to the entry's endpoint, answered without an error status by
    a JSON payload whose [result.releases] is a list; in that list the
    first record named [str(version)] carries, as a string, the [eolFrom]
    that parses to the date.  The date is a valid calendar date. *)
Theorem resolved_date_comes_from_first_match
    (w : World) (e : entry) (t t' : trace) (d : date) :
  e !! "source" <> Some (VStr "manual") ->
  _resolve_eol w e t = (Ret d, t') ->
  exists ep v rv payload pre rel post s,
    e !! "api_endpoint" = Some ep /\
    e !! "version" = Some v /\
    http w t ep 10 = HttpReturn rv /\
    error_status (status_code rv) = false /\
    json_body rv = Some payload /\
    result_releases payload = Some (VList (pre ++ rel :: post)) /\
    forallb (other_release (py_str w v)) pre = true /\
    named_release (py_str w v) rel = Some (VStr s) /\
    fromisoformat s = Some d /\
    valid_date d = true /\
    t' = t ++ [EvHttpGet ep 10].
Proof.
  intros Hsrc Hres.
  assert (Hvalid := resolve_eol_valid w e t d t' Hres).
  rewrite (resolve_eol_api_branch w e t Hsrc) in Hres.
  pose proof (resolve_api_trace w e t) as Ht.
  destruct (e !! "api_endpoint") as [ep|] eqn:Hep; [|congruence].
  rewrite Hres in Ht. simpl in Ht.
  revert Hres. unfold resolve_api, bind, lift, requests_get, ret, raise. simpl.
  rewrite Hep.
  destruct (http w t ep 10) as [x|rv] eqn:Hhttp; [discriminate|].
  unfold raise_for_status.
  destruct (error_status (status_code rv)) eqn:Hst; [discriminate|].
  unfold response_json.
  destruct (json_body rv) as [payload|] eqn:Hjs; [|discriminate].
  destruct (payload_releases w ep payload) as [releases|] eqn:Hrel; [|discriminate].
  apply payload_releases_Ret in Hrel.
  destruct (e !! "version") as [v|] eqn:Hv; [|discriminate].
  destruct (py_iter releases) as [rels|] eqn:Hit; [|discriminate].
  destruct (scan_releases w e (py_str w v) rels) as [[r|]|] eqn:Hscan;
    [|destruct (e !! "product"); discriminate|discriminate].
  intros [= -> _].
  destruct (scan_releases_found w e _ rels d Hscan)
    as (pre & rel & post & s & Hrels & Hpre & Hnamed & Hs).
  assert (Hdict : is_dict rel = true).
  { destruct rel; try discriminate. reflexivity. }
  rewrite (iterated_dicts_are_a_list releases rels pre rel post Hit Hrels Hdict) in Hrel.
  subst rels.
  exists ep, v, rv, payload, pre, rel, post, s.
  repeat (split; [first [reflexivity|assumption]|]).
  exact Ht.
Qed.

Lemma resolved_date_comes_from_first_match_witness :
  let w := Samples.online 200 (Some Samples.payload_many) [] in
  exists ep v rv payload pre rel post s,
    Samples.bar !! "api_endpoint" = Some ep /\
    Samples.bar !! "version" = Some v /\
    http w [] ep 10 = HttpReturn rv /\
    error_status (status_code rv) = false /\
    json_body rv = Some payload /\
    result_releases payload = Some (VList (pre ++ rel :: post)) /\
    forallb (other_release (py_str w v)) pre = true /\
    named_release (py_str w v) rel = Some (VStr s) /\
    fromisoformat s = Some (Date 2025 5 1) /\
    valid_date (Date 2025 5 1) = true /\
    [EvHttpGet Samples.endpoint 10] = [] ++ [EvHttpGet ep 10].
Proof.
  intros w.
  assert (Hsrc : Samples.bar !! "source" <> Some (VStr "manual")) by (vm_compute; discriminate).
  assert (Hres : _resolve_eol w Samples.bar []
                 = (Ret (Date 2025 5 1), [EvHttpGet Samples.endpoint 10]))
    by (vm_compute; reflexivity).
  exact (resolved_date_comes_from_first_match w Samples.bar [] _ _ Hsrc Hres).
Defined.

Lemma scan_releases_not_a_record (w : World) e version pre bad post :
  forallb (other_release version) pre = true ->
  is_dict bad = false ->
  scan_releases w e version (pre ++ bad :: post) = Raise AttributeError.
Proof.
  intros Hpre Hbad. rewrite (scan_releases_skip w e version pre _ Hpre).
  destruct bad; try reflexivity. discriminate.
Qed.

(** The API branch from the scan on, whatever [iter] makes of the
    releases. *)
Lemma resolve_api_iter (w : World) (e : entry) t ep rv payload releases v :
  e !! "api_endpoint" = Some ep ->
  http w t ep 10 = HttpReturn rv ->
  error_status (status_code rv) = false ->
  json_body rv = Some payload ->
  result_releases payload = Some releases ->
  e !! "version" = Some v ->
  resolve_api w e t =
  match py_iter releases with
  | Raise x => (Raise x, t ++ [EvHttpGet ep 10])
  | Ret rels =>
      match scan_releases w e (py_str w v) rels with
      | Ret (Some d) => (Ret d, t ++ [EvHttpGet ep 10])
      | Ret None =>
          match e !! "product" with
          | Some product =>
              (Raise (ValueError (Some
                 (py_str w product +:+ " " +:+ py_str w v +:+ " not found @ " +:+ py_str w ep))),
               t ++ [EvHttpGet ep 10])
          | None => (Raise (KeyError "product"), t ++ [EvHttpGet ep 10])
          end
      | Raise x => (Raise x, t ++ [EvHttpGet ep 10])
      end
  end.
Proof.
  intros Hep Hhttp Hst Hjs Hrel Hv.
  destruct (py_iter releases) as [rels|x] eqn:Hit.
  - exact (resolve_api_scan w e t ep rv payload releases v rels Hep Hhttp Hst Hjs Hrel Hv Hit).
  - unfold resolve_api, bind, lift, requests_get, ret, raise. simpl.
    rewrite Hep, Hhttp. unfold raise_for_status, response_json.
    rewrite Hst, Hjs.
    now rewrite (payload_releases_present w ep payload releases Hrel), Hv, Hit.
Qed.

(** X3. The schema check covers the two index operations only.  With
    [result.releases] present, a value that cannot be iterated ([null], a
    boolean, a number) ends the resolution with a [TypeError]; a
    non-empty object or string in place of the list, and a list element
    that is not a record and comes before any match, end it with an
    [AttributeError]; an empty object or string ends it with the "not
    found" error.  None of these is reported as a schema error. *)
Theorem malformed_releases_escape_the_schema_check
    (w : World) (e : entry) (t : trace) (ep v product : value)
    (rv : response) (payload releases : value) :
  e !! "source" <> Some (VStr "manual") ->
  e !! "api_endpoint" = Some ep ->
  e !! "version" = Some v ->
  e !! "product" = Some product ->
  http w t ep 10 = HttpReturn rv ->
  error_status (status_code rv) = false ->
  json_body rv = Some payload ->
  result_releases payload = Some releases ->
  let t' := t ++ [EvHttpGet ep 10] in
  let not_found :=
    ValueError (Some
      (py_str w product +:+ " " +:+ py_str w v +:+ " not found @ " +:+ py_str w ep)) in
  (not_iterable releases = true -> _resolve_eol w e t = (Raise TypeError, t')) /\
  (forall pre bad post,
     releases = VList (pre ++ bad :: post) ->
     forallb (other_release (py_str w v)) pre = true ->
     is_dict bad = false ->
     _resolve_eol w e t = (Raise AttributeError, t')) /\
  (forall m, releases = VDict m ->
     _resolve_eol w e t
     = (if Nat.eqb (size m) 0 then Raise not_found else Raise AttributeError, t')) /\
  (forall s, releases = VStr s ->
     _resolve_eol w e t
     = (if String.eqb s EmptyString then Raise not_found else Raise AttributeError, t')).
Proof.
  intros Hsrc Hep Hv Hp Hhttp Hst Hjs Hrel t' not_found.
  rewrite (resolve_eol_api_branch w e t Hsrc).
  rewrite (resolve_api_iter w e t ep rv payload releases v Hep Hhttp Hst Hjs Hrel Hv).
  split; [|split; [|split]].
  - destruct releases; try discriminate; reflexivity.
  - intros pre bad post -> Hpre Hbad. cbn [py_iter].
    now rewrite (scan_releases_not_a_record w e _ pre bad post Hpre Hbad).
  - intros m ->. cbn [py_iter]. rewrite <- length_map_to_list.
    destruct (map_to_list m) as [|[k x] l]; simpl; [now rewrite Hp|reflexivity].
  - intros s ->. cbn [py_iter].
    destruct s as [|c s]; simpl; [now rewrite Hp|reflexivity].
Qed.

Lemma malformed_releases_escape_the_schema_check_witness :
  let null_releases := VDict (<["result" := VDict (<["releases" := VNone]> ∅)]> ∅) in
  let keyed := VDict (<["2.0" := Samples.release "2.0" (VStr "2025-05-01")]> ∅) in
  let keyed_releases := VDict (<["result" := VDict (<["releases" := keyed]> ∅)]> ∅) in
  let get := [EvHttpGet Samples.endpoint 10] in
  _resolve_eol (Samples.online 200 (Some null_releases) []) Samples.bar []
    = (Raise TypeError, get) /\
  _resolve_eol (Samples.online 200 (Some (Samples.releases_payload [VStr "2.0"])) [])
      Samples.bar []
    = (Raise AttributeError, get) /\
  _resolve_eol (Samples.online 200 (Some keyed_releases) []) Samples.bar []
    = (Raise AttributeError, get).
Proof.
  intros null_releases keyed keyed_releases get.
  assert (Hsrc : Samples.bar !! "source" <> Some (VStr "manual")) by (vm_compute; discriminate).
  split; [|split].
  - exact (proj1 (malformed_releases_escape_the_schema_check
      (Samples.online 200 (Some null_releases) []) Samples.bar [] Samples.endpoint
      (VStr "2.0") (VStr "Bar") (Response 200 (Some null_releases)) null_releases VNone
      Hsrc eq_refl eq_refl eq_refl eq_refl eq_refl eq_refl eq_refl) eq_refl).
  - exact (proj1 (proj2 (malformed_releases_escape_the_schema_check
      (Samples.online 200 (Some (Samples.releases_payload [VStr "2.0"])) []) Samples.bar []
      Samples.endpoint (VStr "2.0") (VStr "Bar")
      (Response 200 (Some (Samples.releases_payload [VStr "2.0"])))
      (Samples.releases_payload [VStr "2.0"]) (VList [VStr "2.0"])
      Hsrc eq_refl eq_refl eq_refl eq_refl eq_refl eq_refl eq_refl))
      [] (VStr "2.0") [] eq_refl eq_refl eq_refl).
  - exact (proj1 (proj2 (proj2 (malformed_releases_escape_the_schema_check
      (Samples.online 200 (Some keyed_releases) []) Samples.bar [] Samples.endpoint
      (VStr "2.0") (VStr "Bar") (Response 200 (Some keyed_releases)) keyed_releases keyed
      Hsrc eq_refl eq_refl eq_refl eq_refl eq_refl eq_refl eq_refl))) _ eq_refl).
Defined.



Lemma named_release_single (name : string) (x : value) :
  named_release name (VDict (<["name" := VStr name]> (<["eolFrom" := x]> ∅))) = Some x.
Proof.
  unfold named_release. rewrite lookup_insert_eq. simpl. rewrite String.eqb_refl.
  rewrite lookup_insert_ne by discriminate. now rewrite lookup_insert_eq.
Qed.

(** X5. Round trip.  The text [isoformat] prints for a valid date
    resolves back to that date: as the [eol_date] of a manual entry, and
    as the [eolFrom] of a payload whose one release is named
    [str(version)]. *)
Theorem resolve_round_trip
    (w : World) (e : entry) (t : trace) (d : date) :
  valid_date d = true ->
  (e !! "source" = Some (VStr "manual") ->
   e !! "eol_date" = Some (VStr (isoformat d)) ->
   _resolve_eol w e t = (Ret d, t)) /\
  (forall ep v status,
     e !! "source" <> Some (VStr "manual") ->
     e !! "api_endpoint" = Some ep ->
     e !! "version" = Some v ->
     error_status status = false ->
     http w t ep 10
       = HttpReturn (Response status
           (Some (one_release_payload (py_str w v) (isoformat d)))) ->
     _resolve_eol w e t = (Ret d, t ++ [EvHttpGet ep 10])).
Proof.
  intros Hd. pose proof (DatetimeFacts.fromisoformat_isoformat d Hd) as Hrt.
  split.
  - intros Hsrc Hdate. rewrite (resolve_eol_manual_branch w e t Hsrc).
    simpl. rewrite Hdate. simpl. now rewrite Hrt.
  - intros ep v status Hsrc Hep Hv Hst Hhttp.
    rewrite (resolve_eol_api_branch w e t Hsrc).
    rewrite (resolve_api_scan w e t ep _ _ _ v _ Hep Hhttp Hst eq_refl eq_refl Hv eq_refl).
    rewrite (scan_releases_hit w e (py_str w v) _ (VStr (isoformat d)) []
               (named_release_single (py_str w v) (VStr (isoformat d)))).
    assert (Hs : truthy (VStr (isoformat d)) = true) by reflexivity.
    rewrite Hs. simpl. now rewrite Hrt.
Qed.

Lemma resolve_round_trip_witness :
  let d := Date 2028 2 29 in
  let w := Samples.online 200 (Some (one_release_payload "2.0" (isoformat d))) [] in
  _resolve_eol w (<["eol_date" := VStr (isoformat d)]> Samples.foo) [] = (Ret d, []) /\
  _resolve_eol w Samples.bar [] = (Ret d, [EvHttpGet Samples.endpoint 10]).
Proof.
  intros d w.
  assert (Hsrc : Samples.bar !! "source" <> Some (VStr "manual")) by (vm_compute; discriminate).
  split.
  - refine (proj1 (resolve_round_trip w (<["eol_date" := VStr (isoformat d)]> Samples.foo)
                     [] d eq_refl) _ _); vm_compute; reflexivity.
  - exact (proj2 (resolve_round_trip w Samples.bar [] d eq_refl)
             Samples.endpoint (VStr "2.0") 200%Z Hsrc eq_refl eq_refl eq_refl eq_refl).
Defined.

(* ===================================================================== *)
(** ** More on the notification flow *)
(* ===================================================================== *)

(** X6. What the loop body decides before it resolves anything.  An
    [issue_repo] that is present but empty ([""], [null], [0], [[]]) makes
    the entry calendar-only, like a missing one.  A [warn_days] that
    [int] rejects ([null], a list, a date, a string that is no number)
    raises before any request is sent. *)
Theorem entry_checks_before_resolution (w : World) (e : entry) (t : trace) :
  (truthy (default VNone (e !! "issue_repo")) = false ->
     open_issues_body w e t = (Ret tt, t)) /\
  (forall x,
     truthy (default VNone (e !! "issue_repo")) = true ->
     py_int w (default (VInt 30) (e !! "warn_days")) = Raise x ->
     open_issues_body w e t = (Raise x, t)) /\
  (forall v,
     e !! "warn_days" = Some v ->
     match v with VInt _ | VBool _ | VStr _ => False | _ => True end ->
     py_int w (default (VInt 30) (e !! "warn_days")) = Raise TypeError).
Proof.
  split; [|split].
  - intros H. unfold open_issues_body. now rewrite H.
  - intros x H Hw. unfold open_issues_body. rewrite H. simpl.
    now rewrite Hw.
  - intros v -> Hv. destruct v; simpl in *; try contradiction; reflexivity.
Qed.

Lemma entry_checks_before_resolution_witness :
  let unnamed := <["issue_repo" := VStr EmptyString]> Samples.bar in
  let unset := <["warn_days" := VNone]> Samples.bar in
  let w := Samples.online 200 (Some Samples.payload3) [] in
  open_issues_body w unnamed [] = (Ret tt, []) /\
  open_issues_body w unset [] = (Raise TypeError, []).
Proof.
  intros unnamed unset w.
  split.
  - refine (proj1 (entry_checks_before_resolution w unnamed []) _).
    vm_compute. reflexivity.
  - refine (proj1 (proj2 (entry_checks_before_resolution w unset [])) TypeError _ _).
    + vm_compute. reflexivity.
    + refine (proj2 (proj2 (entry_checks_before_resolution w unset [])) VNone _ I).
      vm_compute. reflexivity.
Defined.

(** X7. The existence check trusts the search alone.  It runs one
    [gh issue list] command; a failure to start it or a non-zero exit
    status raises; output that is not JSON raises [JSONDecodeError]; a
    JSON list means "exists" exactly when it is not empty, whatever the
    issues in it are called; a JSON number, boolean or [null] raises
    [TypeError]. *)
Theorem issue_exists_outcomes (w : World) (repo : value) (title : string) (t : trace) :
  let run := issue_list_cmd repo title in
  let t' := t ++ [EvRun run] in
  (forall x, subprocess w t run = ProcRaise x ->
     _issue_exists w repo title t = (Raise x, t')) /\
  (forall rc out, subprocess w t run = Completed rc out -> rc <> 0%Z ->
     _issue_exists w repo title t = (Raise (CalledProcessError rc), t')) /\
  (forall out, subprocess w t run = Completed 0 out ->
     (json_loads w out = None ->
        _issue_exists w repo title t = (Raise JSONDecodeError, t')) /\
     (forall items, json_loads w out = Some (VList items) ->
        _issue_exists w repo title t
        = (Ret (match items with [] => false | _ => true end), t')) /\
     (forall js, json_loads w out = Some js -> not_iterable js = true ->
        _issue_exists w repo title t = (Raise TypeError, t'))).
Proof.
  intros run t'. unfold _issue_exists, bind, subprocess_run_check. fold run.
  split; [|split].
  - intros x ->. reflexivity.
  - intros rc out -> Hrc. apply Z.eqb_neq in Hrc. now rewrite Hrc.
  - intros out ->. simpl. split; [|split].
    + intros ->. reflexivity.
    + intros items ->. destruct items; reflexivity.
    + intros js -> Hjs. destruct js; try discriminate; reflexivity.
Qed.

Lemma issue_exists_outcomes_witness :
  let unrelated := VDict (<["title" := VStr "Something else entirely"]> ∅) in
  let repo := VStr "org/repo" in
  let title := "Foo 1.0 reaches EOL on 2024-01-01" in
  _issue_exists (Samples.online 200 None [unrelated]) repo title []
    = (Ret true, [EvRun (issue_list_cmd repo title)]) /\
  _issue_exists (Samples.online 200 None []) repo title []
    = (Ret false, [EvRun (issue_list_cmd repo title)]) /\
  _issue_exists Samples.offline repo title []
    = (Raise (OtherError "FileNotFoundError"), [EvRun (issue_list_cmd repo title)]).
Proof.
  intros unrelated repo title.
  split; [|split].
  - exact (proj1 (proj2 (proj2 (proj2 (issue_exists_outcomes
             (Samples.online 200 None [unrelated]) repo title [])) "<gh stdout>" eq_refl))
             [unrelated] eq_refl).
  - exact (proj1 (proj2 (proj2 (proj2 (issue_exists_outcomes
             (Samples.online 200 None []) repo title [])) "<gh stdout>" eq_refl))
             [] eq_refl).
  - exact (proj1 (issue_exists_outcomes Samples.offline repo title [])
             (OtherError "FileNotFoundError") eq_refl).
Defined.

Lemma count_events_app p (l1 l2 : trace) :
  count_events p (l1 ++ l2) = count_events p l1 + count_events p l2.
Proof. induction l1 as [|ev l1 IH]; [reflexivity|]. simpl. rewrite IH. lia. Qed.

Lemma request_of_cases (e : entry) :
  request_of e = [] \/ exists ep, request_of e = [EvHttpGet ep 10].
Proof.
  unfold request_of.
  destruct (py_eq_str _ _); [now left|].
  destruct (e !! "api_endpoint") as [ep|]; [right; now exists ep|now left].
Qed.

(** The events of the tracker stage, and what a tracker that answers
    every search with a hit makes of them. *)
Lemma notify_events (w : World) (e : entry) repo eol t :
  exists tr,
    snd (notify w e repo eol t) = t ++ tr /\
    (tr = [] \/ exists title body, tracker_events w repo title body tr) /\
    ((forall t1 title, fst (_issue_exists w repo title t1) = Ret true) ->
       count_events (is_gh "create") tr = 0).
Proof.
  destruct (e !! "product") as [product|] eqn:Hp; cycle 1.
  { exists []. unfold notify, bind, lift. simpl. rewrite Hp. simpl.
    rewrite app_nil_r. split; [reflexivity|]. split; [now left|reflexivity]. }
  destruct (e !! "version") as [version|] eqn:Hv; cycle 1.
  { exists []. unfold notify, bind, lift. simpl. rewrite Hp, Hv. simpl.
    rewrite app_nil_r. split; [reflexivity|]. split; [now left|reflexivity]. }
  rewrite (notify_run w e repo eol t product version Hp Hv).
  set (title := TITLE_TMPL _ _ _). set (body := BODY_TMPL _ _ _ _).
  pose proof (issue_exists_trace w repo title t) as Ht.
  destruct (_issue_exists w repo title t) as [[[|]|x] t2] eqn:Hex; simpl in Ht; subst t2.
  - eexists. split; [simpl; rewrite <- app_assoc; reflexivity|].
    split; [|reflexivity]. right. exists title, body. right. left. reflexivity.
  - pose proof (create_issue_trace w repo title body
                  (t ++ [EvRun (issue_list_cmd repo title)])) as Hc.
    destruct (_create_issue w repo title body _) as [[[]|x] t3]; simpl in Hc; subst t3.
    + eexists. split; [simpl; rewrite <- !app_assoc; reflexivity|].
      split.
      * right. exists title, body. do 3 right. reflexivity.
      * intros Hhit. specialize (Hhit t title). rewrite Hex in Hhit. discriminate.
    + eexists. split; [simpl; rewrite <- !app_assoc; reflexivity|].
      split.
      * right. exists title, body. right. right. left. reflexivity.
      * intros Hhit. specialize (Hhit t title). rewrite Hex in Hhit. discriminate.
  - eexists. split; [reflexivity|].
    split; [|reflexivity]. right. exists title, body. left. reflexivity.
Qed.

Lemma open_issues_body_events (w : World) (e : entry) t :
  let repo := default VNone (e !! "issue_repo") in
  exists evs,
    snd (open_issues_body w e t) = t ++ evs /\
    (evs = [] \/ evs = request_of e \/
     exists title body tr,
       tracker_events w repo title body tr /\ evs = request_of e ++ tr) /\
    ((forall t1 title, fst (_issue_exists w repo title t1) = Ret true) ->
       count_events (is_gh "create") evs = 0).
Proof.
  intros repo. unfold open_issues_body. fold repo.
  destruct (truthy repo); simpl; cycle 1.
  { exists []. rewrite app_nil_r. split; [reflexivity|]. split; [now left|reflexivity]. }
  unfold bind at 1. unfold lift at 1.
  destruct (py_int w (default (VInt 30) (e !! "warn_days"))) as [warn|x]; cycle 1.
  { exists []. rewrite app_nil_r. split; [reflexivity|]. split; [now left|reflexivity]. }
  assert (Hreq : count_events (is_gh "create") (request_of e) = 0).
  { destruct (request_of_cases e) as [-> | [ep ->]]; reflexivity. }
  unfold bind at 1.
  pose proof (resolve_eol_trace w e t) as Hres.
  destruct (_resolve_eol w e t) as [[eol|x] t1]; simpl in Hres; subst t1; cycle 1.
  { exists (request_of e). split; [reflexivity|]. split; [right; now left|]. now intros _. }
  unfold bind at 1. unfold _days_until at 1.
  destruct (warn <? sub_days eol (today w (t ++ request_of e)))%Z.
  { exists (request_of e). split; [reflexivity|]. split; [right; now left|]. now intros _. }
  destruct (notify_events w e repo eol (t ++ request_of e)) as (tr & Htr & Hshape & Hhit).
  exists (request_of e ++ tr). split; [now rewrite Htr, app_assoc|].
  split.
  - destruct Hshape as [->|(title & body & Hshape)].
    + right. left. now rewrite app_nil_r.
    + right. right. now exists title, body, tr.
  - intros H. rewrite count_events_app, Hreq, (Hhit H). reflexivity.
Qed.

(** X8. The events one entry leaves in the notification flow have a
    fixed shape: first the request of its resolution (if any), then at
    most one search, then at most one creation, then at most one printed
    line.  A creation is always directly preceded by the search for the
    same repository and the same title. *)
Theorem entry_events_shape (w : World) (e : entry) (t : trace) :
  exists evs,
    snd (open_issues_body w e t) = t ++ evs /\
    (evs = [] \/ evs = request_of e \/
     exists title body tr,
       tracker_events w (default VNone (e !! "issue_repo")) title body tr /\
       evs = request_of e ++ tr).
Proof.
  destruct (open_issues_body_events w e t) as (evs & H1 & H2 & _).
  exists evs. now split.
Qed.

Lemma tracker_events_counts (w : World) repo title body tr :
  tracker_events w repo title body tr ->
  count_events is_get tr = 0 /\
  count_events (is_gh "list") tr = 1 /\
  count_events (is_gh "create") tr <= 1 /\
  count_events is_write tr = 0 /\
  count_events is_run tr
  = count_events (is_gh "list") tr + count_events (is_gh "create") tr.
Proof.
  intros [-> | [-> | [-> | ->]]]; simpl; repeat split; lia.
Qed.

Lemma for_each_events {A} (body : A -> M unit) (P : nat -> trace -> Prop) :
  P 0 [] ->
  (forall n x evs1 evs2 t,
     snd (body x t) = t ++ evs1 -> P n evs2 -> P (S n) (evs1 ++ evs2)) ->
  (forall n x evs1 t, snd (body x t) = t ++ evs1 -> P (S n) evs1) ->
  (forall x t, exists evs, snd (body x t) = t ++ evs) ->
  forall l t, exists evs, snd (for_each body l t) = t ++ evs /\ P (length l) evs.
Proof.
  intros H0 Hstep Hstop Hbody l.
  induction l as [|x l IH]; intros t.
  - exists []. simpl. rewrite app_nil_r. now split.
  - rewrite for_each_cons.
    destruct (Hbody x t) as (evs1 & H1).
    destruct (body x t) as [[[]|exn] t1] eqn:Hx; simpl in H1; subst t1.
    + destruct (IH (t ++ evs1)) as (evs2 & H2 & HP).
      exists (evs1 ++ evs2). split; [now rewrite H2, app_assoc|].
      apply (Hstep _ x evs1 evs2 t); [now rewrite Hx|exact HP].
    + exists evs1. split; [reflexivity|].
      apply (Hstop _ x evs1 t). now rewrite Hx.
Qed.

Lemma open_issues_body_counts (w : World) (e : entry) t evs :
  snd (open_issues_body w e t) = t ++ evs ->
  count_events is_get evs <= 1 /\
  count_events (is_gh "list") evs <= 1 /\
  count_events (is_gh "create") evs <= count_events (is_gh "list") evs /\
  count_events is_write evs = 0 /\
  count_events is_run evs
  = count_events (is_gh "list") evs + count_events (is_gh "create") evs.
Proof.
  intros Hevs.
  destruct (open_issues_body_events w e t) as (evs' & H1 & Hshape & _).
  rewrite Hevs in H1. apply app_inv_head in H1. subst evs'.
  assert (Hreq : count_events is_get (request_of e) <= 1 /\
                 count_events (is_gh "list") (request_of e) = 0 /\
                 count_events (is_gh "create") (request_of e) = 0 /\
                 count_events is_write (request_of e) = 0 /\
                 count_events is_run (request_of e) = 0).
  { destruct (request_of_cases e) as [-> | [ep ->]]; simpl; repeat split; lia. }
  destruct Hshape as [-> | [-> | (title & body & tr & Htr & ->)]].
  - simpl. repeat split; lia.
  - lia.
  - apply tracker_events_counts in Htr. rewrite !count_events_app. lia.
Qed.

(** X9. The budget of a run of the notification flow over [n] entries:
    at most [n] requests, at most [n] searches, no more creations than
    searches, no file written, and no subprocess other than the two [gh]
    commands.  This holds for every world and also for a run cut short by
    an exception. *)
Theorem open_issues_budget (w : World) (entries : list entry) (t : trace) :
  exists evs,
    snd (_open_issues w entries t) = t ++ evs /\
    count_events is_get evs <= length entries /\
    count_events (is_gh "list") evs <= length entries /\
    count_events (is_gh "create") evs <= count_events (is_gh "list") evs /\
    count_events is_write evs = 0 /\
    count_events is_run evs
    = count_events (is_gh "list") evs + count_events (is_gh "create") evs.
Proof.
  unfold _open_issues.
  destruct (getenv w "GH_TOKEN") as [[|c tok]|];
    try (eexists; split; [reflexivity|]; simpl; repeat split; lia).
  apply (for_each_events (open_issues_body w)
           (fun n evs =>
              count_events is_get evs <= n /\
              count_events (is_gh "list") evs <= n /\
              count_events (is_gh "create") evs <= count_events (is_gh "list") evs /\
              count_events is_write evs = 0 /\
              count_events is_run evs
              = count_events (is_gh "list") evs + count_events (is_gh "create") evs)).
  - simpl. repeat split; lia.
  - intros n e evs1 evs2 t0 H1 H2.
    apply open_issues_body_counts in H1. rewrite !count_events_app. lia.
  - intros n e evs1 t0 H1. apply open_issues_body_counts in H1. lia.
  - intros e t0. destruct (open_issues_body_events w e t0) as (evs & H & _).
    now exists evs.
Qed.

(** X10. Re-running is harmless as long as the tracker remembers: if
    every search the tracker is asked comes back with a hit, a run
    creates no issue, whatever the catalog, the dates and the network
    are. *)
Theorem no_creation_when_every_search_hits
    (w : World) (entries : list entry) (t : trace) :
  (forall t1 repo title, exists out js n,
     subprocess w t1 (issue_list_cmd repo title) = Completed 0 out /\
     json_loads w out = Some js /\
     py_len js = Ret (S n)) ->
  exists evs,
    snd (_open_issues w entries t) = t ++ evs /\
    count_events (is_gh "create") evs = 0.
Proof.
  intros Hhit.
  assert (Hex : forall repo t1 title, fst (_issue_exists w repo title t1) = Ret true).
  { intros repo t1 title.
    destruct (Hhit t1 repo title) as (out & js & n & Hrun & Hjs & Hlen).
    unfold _issue_exists, bind, subprocess_run_check, lift, ret.
    rewrite Hrun. simpl. rewrite Hjs, Hlen. reflexivity. }
  unfold _open_issues.
  destruct (getenv w "GH_TOKEN") as [[|c tok]|];
    try (eexists; split; [reflexivity|]; reflexivity).
  apply (for_each_events (open_issues_body w)
           (fun _ evs => count_events (is_gh "create") evs = 0)).
  - reflexivity.
  - intros n e evs1 evs2 t0 H1 H2.
    destruct (open_issues_body_events w e t0) as (evs & H & _ & Hc).
    rewrite H1 in H. apply app_inv_head in H. subst evs.
    rewrite count_events_app, H2, (Hc (Hex _)). reflexivity.
  - intros n e evs1 t0 H1.
    destruct (open_issues_body_events w e t0) as (evs & H & _ & Hc).
    rewrite H1 in H. apply app_inv_head in H. subst evs.
    exact (Hc (Hex _)).
  - intros e t0. destruct (open_issues_body_events w e t0) as (evs & H & _).
    now exists evs.
Qed.

Lemma no_creation_when_every_search_hits_witness :
  let w := Samples.online 200 (Some Samples.payload3) [Cases.hit] in
  exists evs,
    snd (_open_issues w [Samples.foo; Samples.bar] []) = [] ++ evs /\
    count_events (is_gh "create") evs = 0.
Proof.
  intros w.
  apply (no_creation_when_every_search_hits w [Samples.foo; Samples.bar] []).
  intros t1 repo title. exists "<gh stdout>", (VList [Cases.hit]), 0.
  split; [reflexivity|]. split; reflexivity.
Defined.

(* ===================================================================== *)
(** ** More on the calendar flow *)
(* ===================================================================== *)

Lemma calendar_body_trace (w : World) (e : entry) t :
  snd (calendar_body w e t) = t ++ calendar_footprint w e.
Proof.
  unfold calendar_body, calendar_footprint, bind, print, emit, lift.
  pose proof (resolve_eol_trace w e (t ++ [EvStdout (py_str w (VDict e))])) as H.
  destruct (_resolve_eol w e _) as [[eol|x] t1]; simpl in H; subst t1.
  - rewrite <- app_assoc. destruct (make_event w e eol); reflexivity.
  - now rewrite <- app_assoc.
Qed.





Lemma calendar_loop_log (w : World) entries cal t :
  exists k,
    k <= length entries /\
    snd (calendar_loop w entries cal t)
    = t ++ flat_map (calendar_footprint w) (take k entries) /\
    match fst (calendar_loop w entries cal t) with
    | Ret _ => k = length entries
    | Raise _ => 0 < k
    end.
Proof.
  revert cal t. induction entries as [|e rest IH]; intros cal t.
  - exists 0. simpl. rewrite app_nil_r. repeat split; lia.
  - cbn [calendar_loop]. unfold bind.
    pose proof (calendar_body_trace w e t) as Hb.
    destruct (calendar_body w e t) as [[evt|x] t1]; simpl in Hb; subst t1.
    + destruct (IH (cal ++ [evt]) (t ++ calendar_footprint w e)) as (k & Hk & Hlog & Hend).
      exists (S k). split; [simpl; lia|]. split.
      * rewrite Hlog. cbn [take flat_map]. now rewrite app_assoc.
      * destruct (fst (calendar_loop w rest (cal ++ [evt]) (t ++ calendar_footprint w e)));
          simpl; lia.
    + exists 1. split; [simpl; lia|]. split; [|simpl; lia].
      cbn [take flat_map]. now rewrite take_0, app_nil_r.
Qed.

(** X12. The log of the calendar flow is fixed by the catalog and by how
    far the run got: for each entry taken up, the printed entry followed
    by the request of its resolution, in catalog order.  The file is
    written once, after the last entry, when every entry succeeded; when
    an entry fails the run stops there and writes nothing.  No [gh]
    command is ever run. *)
Theorem calendar_log_and_single_write
    (w : World) (entries : list entry) (dest : string) (t : trace) :
  exists k,
    k <= length entries /\
    let seen := flat_map (calendar_footprint w) (take k entries) in
    count_events is_run seen = 0 /\
    count_events is_write seen = 0 /\
    match calendar_loop w entries [] t with
    | (Ret cal, _) =>
        k = length entries /\
        snd (_calendar w entries dest t)
        = t ++ seen ++ [EvWriteText dest (ics_serialize w cal)]
    | (Raise x, _) =>
        0 < k /\ _calendar w entries dest t = (Raise x, t ++ seen)
    end.
Proof.
  destruct (calendar_loop_log w entries [] t) as (k & Hk & Hlog & Hend).
  exists k. split; [exact Hk|]. cbn zeta.
  assert (Hnone : forall l,
            count_events is_run (flat_map (calendar_footprint w) l) = 0 /\
            count_events is_write (flat_map (calendar_footprint w) l) = 0).
  { induction l as [|e l [IH1 IH2]]; [now split|].
    cbn [flat_map]. rewrite !count_events_app, IH1, IH2.
    unfold calendar_footprint.
    destruct (request_of_cases e) as [-> | [ep ->]]; now split. }
  split; [apply Hnone|]. split; [apply Hnone|].
  unfold _calendar, bind.
  destruct (calendar_loop w entries [] t) as [[cal|x] t1]; simpl in Hlog, Hend; subst t1.
  - split; [exact Hend|]. unfold write_text.
    destruct (write_file w _ dest (ics_serialize w cal)); simpl; now rewrite app_assoc.
  - now split.
Qed.

(* ===================================================================== *)
(** ** Days between dates *)
(* ===================================================================== *)

Module OrdinalFacts.
Local Open Scope Z_scope.

Lemma div_step k y :
  0 < k -> y / k = (y - 1) / k + (if y mod k =? 0 then 1 else 0).
Proof.
  intros Hk.
  pose proof (Z.div_mod y k ltac:(lia)) as Hy.
  pose proof (Z.div_mod (y - 1) k ltac:(lia)) as Hy1.
  pose proof (Z.mod_pos_bound y k Hk) as By.
  pose proof (Z.mod_pos_bound (y - 1) k Hk) as By1.
  set (q := y / k) in *. set (q1 := (y - 1) / k) in *.
  set (r := y mod k) in *. set (r1 := (y - 1) mod k) in *.
  assert (Hd : k * (q - q1) = r1 + 1 - r) by lia.
  destruct (Z.eqb_spec r 0) as [E|E].
  - assert (q - q1 = 1) by nia. lia.
  - assert (q - q1 = 0) by nia. lia.
Qed.

Lemma days_before_year_step y :
  _days_before_year (y + 1)
  = _days_before_year y + 365 + (if _is_leap y then 1 else 0).
Proof.
  unfold _days_before_year, _is_leap. cbn zeta.
  replace (y + 1 - 1) with y by lia.
  rewrite (div_step 4 y), (div_step 100 y), (div_step 400 y) by lia.
  destruct (Z.eqb_spec (y mod 4) 0) as [E4|E4],
           (Z.eqb_spec (y mod 100) 0) as [E100|E100],
           (Z.eqb_spec (y mod 400) 0) as [E400|E400]; cbn [negb andb orb];
    try lia; exfalso; Z.div_mod_to_equations; lia.
Qed.

Lemma days_before_year_gap y k :
  0 <= k -> _days_before_year y + 365 * k <= _days_before_year (y + k).
Proof.
  intros Hk. revert k Hk.
  apply (natlike_ind (fun k => _days_before_year y + 365 * k <= _days_before_year (y + k))).
  - replace (y + 0) with y by lia. lia.
  - intros k Hk IH. replace (y + Z.succ k) with (y + k + 1) by lia.
    rewrite days_before_year_step. destruct (_is_leap (y + k)); lia.
Qed.

Lemma month_cases m :
  1 <= m <= 12 ->
  m = 1 \/ m = 2 \/ m = 3 \/ m = 4 \/ m = 5 \/ m = 6 \/
  m = 7 \/ m = 8 \/ m = 9 \/ m = 10 \/ m = 11 \/ m = 12.
Proof. lia. Qed.

Lemma valid_date_fields d :
  valid_date d = true ->
  1 <= year d <= 9999 /\ 1 <= month d <= 12 /\
  1 <= day d <= _days_in_month (year d) (month d).
Proof.
  unfold valid_date, MINYEAR, MAXYEAR. intros H.
  repeat (apply andb_prop in H; destruct H as [H ?]). lia.
Qed.

(** The day of the year lies within the year. *)
Lemma day_of_year_bounds y m d :
  1 <= m <= 12 -> 1 <= d <= _days_in_month y m ->
  1 <= _days_before_month y m + d <= 365 + (if _is_leap y then 1 else 0).
Proof.
  intros Hm Hd. unfold _days_before_month, _days_in_month in *.
  destruct (month_cases m Hm) as [->|[->|[->|[->|[->|[->|[->|[->|[->|[->|[->| ->]]]]]]]]]]];
    cbn in *; destruct (_is_leap y); cbn in *; lia.
Qed.

(** Within a year, a later month starts after the earlier month ends. *)
Lemma months_in_order y m1 m2 d1 d2 :
  1 <= m1 <= 12 -> 1 <= m2 <= 12 -> m1 < m2 ->
  1 <= d1 <= _days_in_month y m1 -> 1 <= d2 ->
  _days_before_month y m1 + d1 < _days_before_month y m2 + d2.
Proof.
  intros H1 H2 Hlt Hd1 Hd2. unfold _days_before_month, _days_in_month in *.
  destruct (month_cases m1 H1) as [->|[->|[->|[->|[->|[->|[->|[->|[->|[->|[->| ->]]]]]]]]]]];
    destruct (month_cases m2 H2) as [->|[->|[->|[->|[->|[->|[->|[->|[->|[->|[->| ->]]]]]]]]]]];
    try lia; cbn in *; destruct (_is_leap y); cbn in *; lia.
Qed.

Lemma toordinal_lt a b :
  valid_date a = true -> valid_date b = true ->
  date_ltb a b = true -> toordinal a < toordinal b.
Proof.
  intros Ha Hb.
  destruct (valid_date_fields a Ha) as (Hya & Hma & Hda).
  destruct (valid_date_fields b Hb) as (Hyb & Hmb & Hdb).
  unfold date_ltb, toordinal, _ymd2ord.
  intros [Hy|[Hy [Hm|[Hm Hd]%andb_prop]%orb_prop]%andb_prop]%orb_prop.
  - apply Z.ltb_lt in Hy.
    pose proof (day_of_year_bounds (year a) (month a) (day a) Hma Hda) as Ba.
    pose proof (day_of_year_bounds (year b) (month b) (day b) Hmb Hdb) as Bb.
    pose proof (days_before_year_step (year a)) as Hs.
    pose proof (days_before_year_gap (year a + 1) (year b - (year a + 1))) as Hg.
    replace (year a + 1 + (year b - (year a + 1))) with (year b) in Hg by lia.
    destruct (_is_leap (year a)); lia.
  - apply Z.eqb_eq in Hy. apply Z.ltb_lt in Hm. rewrite <- Hy in *.
    pose proof (months_in_order (year a) (month a) (month b) (day a) (day b)
                  Hma Hmb Hm Hda). lia.
  - apply Z.eqb_eq in Hy. apply Z.eqb_eq in Hm. apply Z.ltb_lt in Hd.
    rewrite Hy, Hm. lia.
Qed.

Lemma date_trichotomy a b :
  date_ltb a b = true \/ a = b \/ date_ltb b a = true.
Proof.
  destruct a as [y1 m1 d1], b as [y2 m2 d2]. unfold date_ltb. simpl.
  destruct (Z.lt_trichotomy y1 y2) as [H|[->|H]].
  - left. apply Z.ltb_lt in H. now rewrite H.
  - rewrite Z.ltb_irrefl, Z.eqb_refl. simpl.
    destruct (Z.lt_trichotomy m1 m2) as [H|[->|H]].
    + left. apply Z.ltb_lt in H. now rewrite H.
    + rewrite Z.ltb_irrefl, Z.eqb_refl. simpl.
      destruct (Z.lt_trichotomy d1 d2) as [H|[->|H]].
      * left. now apply Z.ltb_lt.
      * right. now left.
      * right. right. now apply Z.ltb_lt.
    + right. right. apply Z.ltb_lt in H. now rewrite H.
  - right. right. apply Z.ltb_lt in H. now rewrite H.
Qed.

End OrdinalFacts.

(** X13. The number [_days_until] returns has the sign the calendar
    gives it: for valid dates it is negative exactly when the date lies
    before today in (year, month, day) order, zero exactly when the date
    is today, and positive exactly when it lies after today.  The clock
    is read, nothing is logged. *)
Theorem days_until_sign (w : World) (d : date) (t : trace) :
  valid_date d = true ->
  valid_date (today w t) = true ->
  exists n,
    _days_until w d t = (Ret n, t) /\
    ((n < 0)%Z <-> date_ltb d (today w t) = true) /\
    (n = 0%Z <-> d = today w t) /\
    ((0 < n)%Z <-> date_ltb (today w t) d = true).
Proof.
  intros Hd Ht. exists (sub_days d (today w t)). split; [reflexivity|].
  unfold sub_days.
  pose proof (OrdinalFacts.toordinal_lt d (today w t) Hd Ht) as Hlt.
  pose proof (OrdinalFacts.toordinal_lt (today w t) d Ht Hd) as Hgt.
  destruct (OrdinalFacts.date_trichotomy d (today w t)) as [H|[H|H]].
  - specialize (Hlt H). repeat split; intros; try lia; try assumption.
    + subst d. lia.
    + destruct (date_ltb (today w t) d) eqn:E; [specialize (Hgt eq_refl); lia|discriminate].
  - rewrite <- H in *. repeat split; intros; try lia; try reflexivity.
    + destruct (date_ltb d d) eqn:E; [specialize (Hlt eq_refl); lia|discriminate].
    + destruct (date_ltb d d) eqn:E; [specialize (Hlt eq_refl); lia|discriminate].
  - specialize (Hgt H). repeat split; intros; try lia; try assumption.
    + destruct (date_ltb d (today w t)) eqn:E; [specialize (Hlt eq_refl); lia|discriminate].
    + subst d. lia.
Qed.

Lemma days_until_sign_witness :
  let w := Samples.offline in
  exists n,
    _days_until w (Date 2024 1 1) [] = (Ret n, []) /\
    ((n < 0)%Z <-> date_ltb (Date 2024 1 1) (today w []) = true) /\
    (n = 0%Z <-> Date 2024 1 1 = today w []) /\
    ((0 < n)%Z <-> date_ltb (today w []) (Date 2024 1 1) = true).
Proof.
  exact (days_until_sign Samples.offline (Date 2024 1 1) [] eq_refl eq_refl).
Defined.

(* ===================================================================== *)
(** ** Fields read late, and the entry point *)
(* ===================================================================== *)

(** X14. The fields of an entry are read where they are used, not
    checked up front.  An API entry without [version] fails with
    [KeyError] only after its request was sent and the payload passed the
    schema check.  An entry that is due but has no [product] (or no
    [version]) fails with [KeyError] after its resolution and before the
    tracker is contacted. *)
Theorem missing_fields_fail_late
    (w : World) (e : entry) (t : trace) :
  (forall ep rv payload releases,
     e !! "source" <> Some (VStr "manual") ->
     e !! "api_endpoint" = Some ep ->
     http w t ep 10 = HttpReturn rv ->
     error_status (status_code rv) = false ->
     json_body rv = Some payload ->
     result_releases payload = Some releases ->
     e !! "version" = None ->
     _resolve_eol w e t = (Raise (KeyError "version"), t ++ [EvHttpGet ep 10])) /\
  (forall repo warn eol t1 key,
     e !! "issue_repo" = Some repo ->
     truthy repo = true ->
     py_int w (default (VInt 30) (e !! "warn_days")) = Ret warn ->
     _resolve_eol w e t = (Ret eol, t1) ->
     (sub_days eol (today w t1) <= warn)%Z ->
     (key = "product" /\ e !! "product" = None \/
      key = "version" /\ e !! "version" = None /\ is_Some (e !! "product")) ->
     open_issues_body w e t = (Raise (KeyError key), t1)).
Proof.
  split.
  - intros ep rv payload releases Hsrc Hep Hhttp Hst Hjs Hrel Hv.
    rewrite (resolve_eol_api_branch w e t Hsrc).
    unfold resolve_api, bind, lift, requests_get. simpl.
    rewrite Hep, Hhttp. unfold raise_for_status, response_json.
    rewrite Hst, Hjs.
    now rewrite (payload_releases_present w ep payload releases Hrel), Hv.
  - intros repo warn eol t1 key Hrepo Htruthy Hwarn Hres Hdue Hkey.
    rewrite (open_issues_body_eligible w e t repo warn eol t1 Hrepo Htruthy Hwarn Hres).
    apply Z.ltb_ge in Hdue. rewrite Hdue.
    unfold notify, bind, lift. simpl.
    destruct Hkey as [[-> Hp]|(-> & Hv & [p Hp])].
    + now rewrite Hp.
    + now rewrite Hp, Hv.
Qed.

Lemma missing_fields_fail_late_witness :
  let w := Samples.online 200 (Some Samples.payload3) [] in
  _resolve_eol w (delete "version" Samples.bar) []
    = (Raise (KeyError "version"), [EvHttpGet Samples.endpoint 10]) /\
  open_issues_body w (delete "product" Samples.bar) []
    = (Raise (KeyError "product"), [EvHttpGet Samples.endpoint 10]).
Proof.
  intros w. split.
  - refine (proj1 (missing_fields_fail_late w (delete "version" Samples.bar) [])
              Samples.endpoint (Response 200 (Some Samples.payload3)) Samples.payload3
              (VList [Samples.release "2.0" (VStr "2025-05-01")]) _ _ _ _ _ _ _);
      vm_compute; try reflexivity. discriminate.
  - refine (proj2 (missing_fields_fail_late w (delete "product" Samples.bar) [])
              (VStr "org/repo") 30%Z (Date 2025 5 1) [EvHttpGet Samples.endpoint 10]
              "product" _ _ _ _ _ (or_introl (conj eq_refl _)));
      vm_compute; try reflexivity. discriminate.
Defined.


